(** * Blood Test Report Analyser: the tools of [tools.py]

    A shallow embedding of the three tools the repository owns:

    - [ReadBloodReportTool._run]: path resolution, the bounded wait for the
      uploaded file, the extension check and the page join;
    - [NutritionAnalysisTool._run]: the search of the report text for the
      markers of the reference table and the advice lines;
    - [ExercisePlanningTool._run]: the two threshold checks and the plan.

    and of the upload handler of [main.py], [process_file_and_run], which
    stores the upload, calls the crew and cleans up.

    Python values are modelled as follows.  A [str] is a [string] of 8-bit
    characters read as the code points 0..255.  A [float] is its exact
    rational value or [+inf] (no other float can come out of a run of digits
    and dots).  A [dict] is an association list in insertion order.  An
    exception is a constructor of [exn] carried by [Raise].  The file system,
    the clock and the PDF loader are an explicit environment. *)

From Stdlib Require Import ZArith QArith Qround List String Ascii Bool Lia.
From Stdlib Require Import DecimalString.
Import ListNotations.
Close Scope Q_scope.
Open Scope string_scope.

(** ** Python [str] methods used by the tools *)

Module PyStr.

Definition code (c : ascii) : N := N_of_ascii c.

(** [str.lower] on one character: A-Z, and the Latin-1 capitals
    0xC0-0xDE except the multiplication sign 0xD7, move up by 32. *)
Definition lower_char (c : ascii) : ascii :=
  let n := code c in
  if ((65 <=? n) && (n <=? 90))%N then ascii_of_N (n + 32)
  else if ((192 <=? n) && (n <=? 222) && negb (n =? 215))%N
       then ascii_of_N (n + 32)
  else c.

Fixpoint lower (s : string) : string :=
  match s with
  | EmptyString => EmptyString
  | String c r => String (lower_char c) (lower r)
  end.

Fixpoint rev_acc (s acc : string) : string :=
  match s with
  | EmptyString => acc
  | String c r => rev_acc r (String c acc)
  end.

Definition rev (s : string) : string := rev_acc s EmptyString.

(** [s.endswith(suffix)] *)
Definition endswith (s suffix : string) : bool :=
  prefix (rev suffix) (rev s).

(** [sep.join(parts)] *)
Fixpoint join (sep : string) (parts : list string) : string :=
  match parts with
  | [] => EmptyString
  | [p] => p
  | p :: rest => p ++ sep ++ join sep rest
  end.

(** [s[n:]] *)
Fixpoint drop (n : nat) (s : string) : string :=
  match n, s with
  | O, _ => s
  | S n', String _ r => drop n' r
  | S _, EmptyString => EmptyString
  end.

(** [s[:n]] *)
Fixpoint take (n : nat) (s : string) : string :=
  match n, s with
  | S n', String c r => String c (take n' r)
  | _, _ => EmptyString
  end.

Fixpoint all_chars (p : ascii -> bool) (s : string) : bool :=
  match s with
  | EmptyString => true
  | String c r => p c && all_chars p r
  end.

(** The longest prefix of characters in [p], and what follows it. *)
Fixpoint span (p : ascii -> bool) (s : string) : string * string :=
  match s with
  | String c r =>
      if p c then let (a, b) := span p r in (String c a, b)
      else (EmptyString, s)
  | EmptyString => (EmptyString, EmptyString)
  end.

Definition is_empty (s : string) : bool :=
  match s with EmptyString => true | _ => false end.

(** [needle in s] *)
Fixpoint contains (needle s : string) : bool :=
  prefix needle s ||
  match s with
  | EmptyString => false
  | String _ r => contains needle r
  end.

(** [str(n)] for a natural number *)
Definition of_nat (n : nat) : string := NilZero.string_of_uint (Nat.to_uint n).

(** [str(z)] for an int *)
Definition of_Z (z : Z) : string := NilZero.string_of_int (Z.to_int z).

End PyStr.

(** ** The fragment of Python's [re] the tools use

    The two patterns are a literal name, a starred set and a group holding a
    plussed set, searched with [re.IGNORECASE].  The matcher is the
    backtracking one: a greedy quantifier takes the longest run first and
    gives characters back while the rest of the pattern fails. *)

Module Re.

Inductive set_item : Type :=
| SetChar (c : ascii)      (* a character, e.g. [:] or [\.] *)
| SetSpace                 (* [\s] *)
| SetDigit.                (* [\d] *)

Definition charset : Type := list set_item.

Inductive item : Type :=
| Lit (c : ascii)          (* one literal character *)
| Star (cs : charset)      (* [...]*  *)
| Plus (cs : charset).     (* [...]+  *)

Inductive node : Type :=
| Item (i : item)
| Group (body : list item). (* ( ... ), the capturing group 1 *)

Definition regex : Type := list node.

(** [\d] on the code points 0..255: the ASCII digits. *)
Definition is_digit (a : ascii) : bool :=
  let n := PyStr.code a in ((48 <=? n) && (n <=? 57))%N.

(** [\s] on the code points 0..255: TAB LF VT FF CR, the separators
    0x1C-0x1F, the space, NEL (0x85) and the no-break space (0xA0). *)
Definition is_space (a : ascii) : bool :=
  let n := PyStr.code a in
  (((9 <=? n) && (n <=? 13)) || ((28 <=? n) && (n <=? 32))
   || (n =? 133) || (n =? 160))%N.

Definition in_item (a : ascii) (i : set_item) : bool :=
  match i with
  | SetChar c => Ascii.eqb c a
  | SetSpace => is_space a
  | SetDigit => is_digit a
  end.

Definition in_set (cs : charset) (a : ascii) : bool :=
  existsb (in_item a) cs.

(** A literal under [re.IGNORECASE]: equal after lowering. *)
Definition ci_eqb (c a : ascii) : bool :=
  Ascii.eqb (PyStr.lower_char c) (PyStr.lower_char a).

Section Matcher.
Context {R : Type}.

(** Greedy star: the longest run first, then shorter ones. *)
Fixpoint m_star (cs : charset) (k : string -> option R) (s : string)
  : option R :=
  match s with
  | String a r =>
      if in_set cs a then
        match m_star cs k r with
        | Some res => Some res
        | None => k s
        end
      else k s
  | EmptyString => k s
  end.

Definition m_item (i : item) (k : string -> option R) (s : string)
  : option R :=
  match i with
  | Lit c =>
      match s with
      | String a r => if ci_eqb c a then k r else None
      | EmptyString => None
      end
  | Star cs => m_star cs k s
  | Plus cs =>
      match s with
      | String a r => if in_set cs a then m_star cs k r else None
      | EmptyString => None
      end
  end.

Fixpoint m_items (body : list item) (k : string -> option R) (s : string)
  : option R :=
  match body with
  | [] => k s
  | i :: rest => m_item i (m_items rest k) s
  end.

(** [g1] is the text captured by group 1 so far. *)
Fixpoint m_nodes (ns : regex) (g1 : option string)
         (k : option string -> string -> option R) (s : string)
  : option R :=
  match ns with
  | [] => k g1 s
  | Item i :: rest => m_item i (m_nodes rest g1 k) s
  | Group body :: rest =>
      m_items body
        (fun s1 =>
           m_nodes rest
             (Some (PyStr.take (String.length s - String.length s1) s))
             k s1)
        s
  end.

End Matcher.

(** A match object: where it starts and what [group(1)] returns. *)
Record Match : Type := mkMatch { m_start : nat; group1 : option string }.

(** The pattern anchored at the head of [s]. *)
Definition match_here (r : regex) (s : string) : option (option string) :=
  m_nodes r None (fun g _ => Some g) s.

Fixpoint search_from (r : regex) (pos : nat) (s : string) : option Match :=
  match match_here r s with
  | Some g => Some (mkMatch pos g)
  | None =>
      match s with
      | String _ rest => search_from r (S pos) rest
      | EmptyString => None
      end
  end.

(** [re.search(pattern, text, re.IGNORECASE)]: the leftmost match. *)
Definition search (r : regex) (text : string) : option Match :=
  search_from r 0 text.

Definition literal (name : string) : regex :=
  map (fun c => Item (Lit c)) (list_ascii_of_string name).

End Re.

(** ** Python [float], as far as a run of digits and dots reaches it

    [float(s)] rounds the decimal to the nearest binary64 value, ties to
    even, and overflows to [inf]; [repr] prints the shortest digit string
    that reads back as the same value. *)

Module PyFloat.

Inductive t : Type :=
| Fin (q : Q)     (* a finite value, kept in lowest terms *)
| Inf.            (* +inf *)

Definition round_half_even (a b : Z) : Z :=
  let q := (a / b)%Z in
  match (2 * (a mod b) ?= b)%Z with
  | Lt => q
  | Gt => (q + 1)%Z
  | Eq => if Z.even q then q else (q + 1)%Z
  end.

(** [10^k <= n/d] and [2^k <= n/d], for [n >= 0] and [d > 0]. *)
Definition pow_le (base k n d : Z) : bool :=
  if (0 <=? k)%Z then (d * base ^ k <=? n)%Z
  else (d <=? n * base ^ (- k))%Z.

(** floor(log2 (n/d)), for [n > 0] and [d > 0]. *)
Definition ilog2 (n d : Z) : Z :=
  let l := (Z.log2 n - Z.log2 d)%Z in
  if pow_le 2 l n d then l else (l - 1)%Z.

Definition pow2 (e : Z) : Q :=
  if (0 <=? e)%Z then inject_Z (2 ^ e) else 1 # Z.to_pos (2 ^ (- e)).

Definition pow10 (e : Z) : Q :=
  if (0 <=? e)%Z then inject_Z (10 ^ e) else 1 # Z.to_pos (10 ^ (- e)).

(** The binary64 value nearest to [n/d] ([n >= 0], [d > 0]): 53 bits of
    mantissa, exponents from -1074 (subnormals) to 971. *)
Definition round64 (n d : Z) : t :=
  if (n =? 0)%Z then Fin 0
  else
    let e := Z.max (ilog2 n d - 52) (-1074) in
    let m := if (0 <=? e)%Z then round_half_even n (d * 2 ^ e)
             else round_half_even (n * 2 ^ (- e)) d in
    if ((971 <? e) || ((e =? 971) && (m =? 2 ^ 53)))%Z then Inf
    else Fin (Qred (inject_Z m * pow2 e)).

Definition of_Q (q : Q) : t := round64 (Qnum q) (Zpos (Qden q)).

Definition digit_val (c : ascii) : Z := Z.of_N (PyStr.code c) - 48.

Fixpoint digits_val (acc : Z) (s : string) : Z :=
  match s with
  | EmptyString => acc
  | String c r => digits_val (10 * acc + digit_val c) r
  end.

(** [float(s)] for [s] a run of digits and dots; [None] is the
    [ValueError] of a run that is not [digits], [digits.digits],
    [digits.] or [.digits]. *)
Definition of_str (s : string) : option t :=
  let (ip, rest) := PyStr.span Re.is_digit s in
  match rest with
  | EmptyString =>
      if PyStr.is_empty ip then None else Some (round64 (digits_val 0 ip) 1)
  | String c fp =>
      if Ascii.eqb c "."
         && PyStr.all_chars Re.is_digit fp
         && negb (PyStr.is_empty ip && PyStr.is_empty fp)
      then Some (round64 (digits_val 0 (ip ++ fp))
                         (10 ^ Z.of_nat (String.length fp)))
      else None
  end.

(** A float literal of the source, such as [13.5]. *)
Definition literal (s : string) : t :=
  match of_str s with Some f => f | None => Fin 0 end.

(** *** Comparison *)

Definition ltb (a b : t) : bool :=
  match a, b with
  | Fin x, Fin y => negb (Qle_bool y x)
  | Fin _, Inf => true
  | Inf, _ => false
  end.

Definition eqb (a b : t) : bool :=
  match a, b with
  | Fin x, Fin y => Qeq_bool x y
  | Inf, Inf => true
  | _, _ => false
  end.

(** *** [repr] *)

(** The position of the decimal point: [10^(p-1) <= n/d < 10^p]. *)
Fixpoint decpt_from (fuel : nat) (k n d : Z) : Z :=
  match fuel with
  | O => k
  | S f => if pow_le 10 k n d then decpt_from f (k + 1) n d else k
  end.

Definition decpt_of (n d : Z) : Z :=
  decpt_from 5 (ilog2 n d * 30103 / 100000 - 1) n d.

(** The candidates with [nd] digits around [x = n/d]: [D * 10^(p-nd)]
    and [(D+1) * 10^(p-nd)] with [D = floor (x / 10^(p-nd))]. *)
Definition floor_digits (n d p nd : Z) : Z :=
  let s := (p - nd)%Z in
  if (0 <=? s)%Z then (n / (d * 10 ^ s))%Z else (n * 10 ^ (- s) / d)%Z.

Definition reads_back (x : Q) (D s : Z) : bool :=
  eqb (of_Q (inject_Z D * pow10 s)) (Fin x).

(** The shortest digits that read back as [x]; of two candidates of one
    length the nearer, and of two equally near the even one. *)
Fixpoint shortest (fuel : nat) (nd : Z) (x : Q) (p : Z) : Z * Z :=
  let s := (p - nd)%Z in
  let lo := floor_digits (Qnum x) (Zpos (Qden x)) p nd in
  let hi := (lo + 1)%Z in
  let pick :=
    match Qcompare (x - inject_Z lo * pow10 s) (inject_Z hi * pow10 s - x) with
    | Lt => lo
    | Gt => hi
    | Eq => if Z.even lo then lo else hi
    end in
  match fuel with
  | O => (pick, s)
  | S f =>
      match reads_back x lo s, reads_back x hi s with
      | true, true => (pick, s)
      | true, false => (lo, s)
      | false, true => (hi, s)
      | false, false => shortest f (nd + 1) x p
      end
  end.

Fixpoint strip_zeros_rev (s : string) : string :=
  match s with
  | String c r =>
      if Ascii.eqb c "0" && negb (PyStr.is_empty r) then strip_zeros_rev r else s
  | EmptyString => s
  end.

(** Trailing zeros removed, one digit kept. *)
Definition strip_zeros (s : string) : string :=
  PyStr.rev (strip_zeros_rev (PyStr.rev s)).

Fixpoint zeros (n : nat) : string :=
  match n with O => EmptyString | S k => String "0" (zeros k) end.

(** The exponent as C prints it with [%+.02d]. *)
Definition exp_str (e : Z) : string :=
  let a := PyStr.of_Z (Z.abs e) in
  (if (e <? 0)%Z then "-" else "+")
    ++ (if (Z.abs e <? 10)%Z then "0" ++ a else a).

(** Digits [ds] with the point [decpt] places in: fixed notation for
    [-4 < decpt <= 16], exponent notation otherwise. *)
Definition layout (ds : string) (decpt : Z) : string :=
  let nd := Z.of_nat (String.length ds) in
  if ((decpt <=? -4) || (16 <? decpt))%Z then
    match ds with
    | String c EmptyString => String c EmptyString ++ "e" ++ exp_str (decpt - 1)
    | String c r => String c ("." ++ r) ++ "e" ++ exp_str (decpt - 1)
    | EmptyString => EmptyString
    end
  else if (decpt <=? 0)%Z then "0." ++ zeros (Z.to_nat (- decpt)) ++ ds
  else if (nd <=? decpt)%Z then ds ++ zeros (Z.to_nat (decpt - nd)) ++ ".0"
  else PyStr.take (Z.to_nat decpt) ds ++ "." ++ PyStr.drop (Z.to_nat decpt) ds.

(** [repr(f)], which is also what an f-string prints for [{f}]. *)
Definition repr (f : t) : string :=
  match f with
  | Inf => "inf"
  | Fin x =>
      if Qeq_bool x 0 then "0.0"
      else
        let p := decpt_of (Qnum x) (Zpos (Qden x)) in
        let (D, s) := shortest 16 1 x p in
        let ds := PyStr.of_Z D in
        layout (strip_zeros ds) (Z.of_nat (String.length ds) + s)
  end.

End PyFloat.

(** ** Exceptions and results *)

Inductive exn : Type :=
| FileNotFoundError (msg : string)
| ValueError (msg : string)
| TypeError (msg : string)
| KeyError (key : string).

Inductive result (A : Type) : Type :=
| Ok (a : A)
| Raise (e : exn).

Arguments Ok {A} a.
Arguments Raise {A} e.

Definition bind {A B : Type} (r : result A) (f : A -> result B) : result B :=
  match r with
  | Ok a => f a
  | Raise e => Raise e
  end.

Declare Scope py_scope.
Delimit Scope py_scope with py.
Notation "x <- c ;; k" := (bind c (fun x => k))
  (at level 61, c at next level, right associativity) : py_scope.

(** The line feed of ["\n"]. *)
Definition nl : string := String (ascii_of_nat 10) EmptyString.

(** ** Numbers of the reference table: [int] or [float] *)

Module Num.

Inductive t : Type :=
| Int (z : Z)
| Flt (f : PyFloat.t).

(** The exact value, as Python compares an [int] with a [float]. *)
Definition value (x : t) : PyFloat.t :=
  match x with
  | Int z => PyFloat.Fin (inject_Z z)
  | Flt f => f
  end.

Definition ltb (a b : t) : bool := PyFloat.ltb (value a) (value b).
Definition gtb (a b : t) : bool := PyFloat.ltb (value b) (value a).

(** What an f-string prints for [{x}]. *)
Definition str (x : t) : string :=
  match x with
  | Int z => PyStr.of_Z z
  | Flt f => PyFloat.repr f
  end.

End Num.

(** [float(match.group(1))] *)
Definition py_float (g : option string) : result PyFloat.t :=
  match g with
  | None =>
      Raise (TypeError
        "float() argument must be a string or a real number, not 'NoneType'")
  | Some s =>
      match PyFloat.of_str s with
      | Some f => Ok f
      | None =>
          Raise (ValueError
            ("could not convert string to float: '" ++ s ++ "'"))
      end
  end.

(** ** A [dict] in insertion order *)

Module Dict.
Section WithValue.
Context {V : Type}.

Definition t : Type := list (string * V).

Fixpoint get (d : t) (key : string) : option V :=
  match d with
  | [] => None
  | (k, v) :: rest => if String.eqb k key then Some v else get rest key
  end.

(** [d[key] = v]: in place for a key already there, else at the end. *)
Fixpoint set (d : t) (key : string) (v : V) : t :=
  match d with
  | [] => [(key, v)]
  | (k, w) :: rest =>
      if String.eqb k key then (k, v) :: rest
      else (k, w) :: set rest key v
  end.

Definition keys (d : t) : list string := map fst d.
End WithValue.
Arguments t V : clear implicits.
End Dict.

(** ** [ReadBloodReportTool] *)

Module ReadBloodReportTool.

(** What [PyPDFLoader(path).load()] gives: the page texts in page order,
    or an exception with its [str(e)]. *)
Inductive loaded : Type :=
| Pages (page_contents : list string)
| LoadError (msg : string).

(** The world around the tool.  [isfile t p] is [os.path.isfile(p)] at
    time [t], in the unit of [time.sleep]. *)
Record Env : Type := mkEnv {
  abspath : string -> string;
  isfile : nat -> string -> bool;
  pdf_load : nat -> string -> loaded
}.

Inductive event : Type :=
| EvIsFile (path : string) (found : bool)
| EvSleep (secs : nat)
| EvLoad (path : string).

Record World : Type := mkWorld { now : nat; trace : list event }.

Definition M (A : Type) : Type := World -> result A * World.

Definition ret {A : Type} (a : A) : M A := fun w => (Ok a, w).

Definition raise {A : Type} (e : exn) : M A := fun w => (Raise e, w).

Definition mbind {A B : Type} (m : M A) (f : A -> M B) : M B :=
  fun w =>
    match m w with
    | (Ok a, w') => f a w'
    | (Raise e, w') => (Raise e, w')
    end.

Definition emit (ev : event) (w : World) : World :=
  mkWorld (now w) (trace w ++ [ev])%list.

Definition os_path_isfile (env : Env) (path : string) : M bool :=
  fun w =>
    let b := isfile env (now w) path in
    (Ok b, emit (EvIsFile path b) w).

Definition time_sleep (secs : nat) : M unit :=
  fun w => (Ok tt, mkWorld (now w + secs) (trace w ++ [EvSleep secs])%list).

Definition loader_load (env : Env) (path : string) : M loaded :=
  fun w => (Ok (pdf_load env (now w) path), emit (EvLoad path) w).

Definition max_attempts : nat := 3.

(** The [for attempt in range(max_attempts)] loop; [true] is the [break],
    [false] the exhausted loop that runs the [else] clause. *)
Fixpoint wait_for_file (env : Env) (attempts : list nat) (file_path : string)
  : M bool :=
  match attempts with
  | [] => ret false
  | _ :: rest =>
      mbind (os_path_isfile env file_path) (fun found =>
        if found then ret true
        else mbind (time_sleep 1) (fun _ =>
               wait_for_file env rest file_path))
  end.

Definition _run (env : Env) (file_path : string) : M string :=
  let file_path := abspath env file_path in
  mbind (wait_for_file env (seq 0 max_attempts) file_path) (fun found =>
    if negb found then
      raise (FileNotFoundError
               ("File not found after " ++ PyStr.of_nat max_attempts
                  ++ " attempts: " ++ file_path))
    else if negb (PyStr.endswith (PyStr.lower file_path) ".pdf") then
      raise (ValueError "File must be a PDF")
    else
      mbind (loader_load env file_path) (fun docs =>
        match docs with
        | Pages page_contents => ret (PyStr.join nl page_contents)
        | LoadError msg =>
            raise (ValueError ("Error reading PDF file: " ++ msg))
        end)).

(** A call on a fresh world: time 0, nothing observed yet. *)
Definition call (env : Env) (file_path : string) : result string * World :=
  _run env file_path (mkWorld 0 []).

Definition isfile_count (tr : list event) : nat :=
  List.length
    (filter (fun ev => match ev with EvIsFile _ _ => true | _ => false end) tr).

Definition sleep_total (tr : list event) : nat :=
  fold_right (fun ev acc => match ev with EvSleep n => n + acc | _ => acc end)
             0%nat tr.

End ReadBloodReportTool.

(** ** [NutritionAnalysisTool] *)

Module NutritionAnalysisTool.

Definition reference_ranges : Dict.t (Num.t * Num.t) :=
  [ ("Hemoglobin",
      (Num.Flt (PyFloat.literal "13.5"), Num.Flt (PyFloat.literal "17.5")));
    ("Cholesterol", (Num.Int 125, Num.Int 200)) ].

(** [rf"{marker}[:\s]*([\d\.]+)"], for a name without metacharacters. *)
Definition marker_pattern (marker : string) : Re.regex :=
  (Re.literal marker
     ++ [ Re.Item (Re.Star [Re.SetChar ":"; Re.SetSpace]);
          Re.Group [Re.Plus [Re.SetDigit; Re.SetChar "."]] ])%list.

(** The first loop: [findings[marker] = float(match.group(1))]. *)
Fixpoint find_loop (entries : Dict.t (Num.t * Num.t)) (blood_text : string)
         (findings : Dict.t PyFloat.t) : result (Dict.t PyFloat.t) :=
  match entries with
  | [] => Ok findings
  | (marker, _) :: rest =>
      match Re.search (marker_pattern marker) blood_text with
      | Some m =>
          (v <- py_float (Re.group1 m) ;;
           find_loop rest blood_text (Dict.set findings marker v))%py
      | None => find_loop rest blood_text findings
      end
  end.

Definition find_markers (blood_text : string) : result (Dict.t PyFloat.t) :=
  find_loop reference_ranges blood_text [].

Definition below_line (marker : string) (value : PyFloat.t)
           (low high : Num.t) : string :=
  "Your " ++ marker ++ " (" ++ PyFloat.repr value
    ++ ") is below the normal range (" ++ Num.str low ++ "-" ++ Num.str high
    ++ ")." ++ nl
    ++ "Consider foods rich in iron and B12, such as lean red meat, spinach, and fortified cereals.".

Definition above_line (marker : string) (value : PyFloat.t)
           (low high : Num.t) : string :=
  "Your " ++ marker ++ " (" ++ PyFloat.repr value
    ++ ") is above the normal range (" ++ Num.str low ++ "-" ++ Num.str high
    ++ ")." ++ nl
    ++ "Limit saturated fats and processed foods; focus on fiber-rich fruits, vegetables, and whole grains.".

Definition within_line (marker : string) (value : PyFloat.t) : string :=
  "Your " ++ marker ++ " (" ++ PyFloat.repr value
    ++ ") is within the normal range.".

(** The body of the second loop, once [low, high] are looked up. *)
Definition advice_line (marker : string) (value : PyFloat.t)
           (low high : Num.t) : string :=
  if Num.ltb (Num.Flt value) low then below_line marker value low high
  else if Num.gtb (Num.Flt value) high then above_line marker value low high
  else within_line marker value.

(** The second loop, over [findings.items()]. *)
Fixpoint advice_loop (items : Dict.t PyFloat.t) (advice_lines : list string)
  : result (list string) :=
  match items with
  | [] => Ok advice_lines
  | (marker, value) :: rest =>
      match Dict.get reference_ranges marker with
      | None => Raise (KeyError marker)
      | Some (low, high) =>
          advice_loop rest
            (advice_lines ++ [advice_line marker value low high])%list
      end
  end.

Definition no_markers : string :=
  "No recognizable markers found for nutrition analysis.".

(** The part of [_run] after the first loop. *)
Definition compose (findings : Dict.t PyFloat.t) : result string :=
  (advice_lines <- advice_loop findings [] ;;
   match advice_lines with
   | [] => Ok no_markers
   | _ => Ok (PyStr.join (nl ++ nl) advice_lines)
   end)%py.

Definition _run (blood_text : string) : result string :=
  (findings <- find_markers blood_text ;; compose findings)%py.

End NutritionAnalysisTool.

(** ** [ExercisePlanningTool] *)

Module ExercisePlanningTool.

(** [r"Cholesterol[:\s]*([\d\.]+)"] *)
Definition chol_pattern : Re.regex :=
  (Re.literal "Cholesterol"
     ++ [ Re.Item (Re.Star [Re.SetChar ":"; Re.SetSpace]);
          Re.Group [Re.Plus [Re.SetDigit; Re.SetChar "."]] ])%list.

(** [r"Hemoglobin[:\s]*([\d\.]+)"] *)
Definition hemo_pattern : Re.regex :=
  (Re.literal "Hemoglobin"
     ++ [ Re.Item (Re.Star [Re.SetChar ":"; Re.SetSpace]);
          Re.Group [Re.Plus [Re.SetDigit; Re.SetChar "."]] ])%list.

Definition cardio_line : string :=
  "High cholesterol detected: incorporate 30 minutes of moderate cardio (e.g., brisk walking) 5 days/week.".

Definition low_intensity_line : string :=
  "Low hemoglobin detected: start with light-intensity exercises like yoga or pilates 3 days/week, gradually increasing intensity.".

Definition balanced_line : string :=
  "No specific exercise adjustments needed based on provided metrics. Continue a balanced mix of cardio and strength training.".

(** [m and float(m.group(1)) > 200]: [float] runs only on a match. *)
Definition chol_high (chol_match : option Re.Match) : result bool :=
  match chol_match with
  | None => Ok false
  | Some m =>
      (v <- py_float (Re.group1 m) ;;
       Ok (Num.gtb (Num.Flt v) (Num.Int 200)))%py
  end.

(** [m and float(m.group(1)) < 13.5] *)
Definition hemo_low (hemo_match : option Re.Match) : result bool :=
  match hemo_match with
  | None => Ok false
  | Some m =>
      (v <- py_float (Re.group1 m) ;;
       Ok (Num.ltb (Num.Flt v) (Num.Flt (PyFloat.literal "13.5"))))%py
  end.

(** The list [plan] as it stands before the join. *)
Definition build_plan (blood_text : string) : result (list string) :=
  (let plan := [] in
   let chol_match := Re.search chol_pattern blood_text in
   c <- chol_high chol_match ;;
   let plan := if c then (plan ++ [cardio_line])%list else plan in
   let hemo_match := Re.search hemo_pattern blood_text in
   h <- hemo_low hemo_match ;;
   let plan := if h then (plan ++ [low_intensity_line])%list else plan in
   let plan := match plan with [] => (plan ++ [balanced_line])%list | _ => plan end in
   Ok plan)%py.

Definition _run (blood_text : string) : result string :=
  (plan <- build_plan blood_text ;; Ok (PyStr.join (nl ++ nl) plan))%py.

End ExercisePlanningTool.

(** ** The vocabulary of the specification *)

Module Spec.

Inductive Classification : Type := BELOW | WITHIN | ABOVE.

(** value < lowBound: BELOW; value > highBound: ABOVE; otherwise WITHIN. *)
Definition classify (value : PyFloat.t) (low high : Num.t) : Classification :=
  if Num.ltb (Num.Flt value) low then BELOW
  else if Num.gtb (Num.Flt value) high then ABOVE
  else WITHIN.

Record BiomarkerReading : Type := mkReading {
  name : string;
  value : PyFloat.t;
  classification : Classification
}.

(** The readings the finder's [findings] stand for, in their order. *)
Fixpoint readings (table : Dict.t (Num.t * Num.t))
         (findings : Dict.t PyFloat.t) : list BiomarkerReading :=
  match findings with
  | [] => []
  | (marker, v) :: rest =>
      match Dict.get table marker with
      | Some (low, high) =>
          mkReading marker v (classify v low high) :: readings table rest
      | None => readings table rest
      end
  end.

(** Two names that differ in case only. *)
Fixpoint same_name (a b : string) : bool :=
  match a, b with
  | EmptyString, EmptyString => true
  | String x a', String y b' => Re.ci_eqb x y && same_name a' b'
  | _, _ => false
  end.

Definition colon_or_space (c : ascii) : bool :=
  Ascii.eqb ":" c || Re.is_space c.

Definition digit_or_dot (c : ascii) : bool :=
  Re.is_digit c || Ascii.eqb "." c.

Definition starts_in (p : ascii -> bool) (s : string) : bool :=
  match s with
  | String c _ => p c
  | EmptyString => false
  end.

(** At offset [i] of [text] stands the marker's name, in any case, then
    colons and whitespace (possibly none), then the run [number] of digits
    and dots, which ends there. *)
Definition occurs_at (marker text : string) (i : nat) (number : string)
  : Prop :=
  exists pre nm sep rest,
    text = pre ++ nm ++ sep ++ number ++ rest
    /\ String.length pre = i
    /\ same_name marker nm = true
    /\ PyStr.all_chars colon_or_space sep = true
    /\ number <> EmptyString
    /\ PyStr.all_chars digit_or_dot number = true
    /\ starts_in digit_or_dot rest = false.

(** The first such place in document order. *)
Definition first_occurrence (marker text : string) (i : nat)
           (number : string) : Prop :=
  occurs_at marker text i number
  /\ forall j other, j < i -> ~ occurs_at marker text j other.

(** What one step of a finder loop makes of a pattern: no match, or the
    first match's number. *)
Definition matched_value (pattern : Re.regex) (text : string)
  : result (option PyFloat.t) :=
  match Re.search pattern text with
  | None => Ok None
  | Some m => (v <- py_float (Re.group1 m) ;; Ok (Some v))%py
  end.

(** No marker of the table is followed by a run that [float] rejects. *)
Definition numbers_parse (text : string) : Prop :=
  forall marker, In marker (Dict.keys NutritionAnalysisTool.reference_ranges) ->
    exists r,
      matched_value (NutritionAnalysisTool.marker_pattern marker) text = Ok r.

Definition entry (marker : string) (r : option PyFloat.t)
  : Dict.t PyFloat.t :=
  match r with
  | Some v => [(marker, v)]
  | None => []
  end.

(** The anchored match of a marker pattern, read off the text directly:
    the name, then the whole run of colons and whitespace, then the whole
    run of digits and dots, which must not be empty. *)
Fixpoint strip_name (nm s : string) : option string :=
  match nm with
  | EmptyString => Some s
  | String c nm' =>
      match s with
      | String a s' => if Re.ci_eqb c a then strip_name nm' s' else None
      | EmptyString => None
      end
  end.

Definition scan_here (marker s : string) : option string :=
  match strip_name marker s with
  | None => None
  | Some s1 =>
      let s2 := snd (PyStr.span colon_or_space s1) in
      let number := fst (PyStr.span digit_or_dot s2) in
      if PyStr.is_empty number then None else Some number
  end.

(** The two triggers of the exercise plan, on the matched values. *)
Definition chol_above (c : option PyFloat.t) : bool :=
  match c with
  | Some v => Num.gtb (Num.Flt v) (Num.Int 200)
  | None => false
  end.

Definition hemo_below (h : option PyFloat.t) : bool :=
  match h with
  | Some v => Num.ltb (Num.Flt v) (Num.Flt (PyFloat.literal "13.5"))
  | None => false
  end.

(** The lines the plan must hold: the cholesterol line first, the
    fallback alone when nothing triggers. *)
Definition expected_plan (cardio low : bool) : list string :=
  match cardio, low with
  | true, true =>
      [ExercisePlanningTool.cardio_line;
       ExercisePlanningTool.low_intensity_line]
  | true, false => [ExercisePlanningTool.cardio_line]
  | false, true => [ExercisePlanningTool.low_intensity_line]
  | false, false => [ExercisePlanningTool.balanced_line]
  end.

(** The advice line of one finding, with the bounds of the table. *)
Definition line_of (table : Dict.t (Num.t * Num.t))
           (finding : string * PyFloat.t) : string :=
  match Dict.get table (fst finding) with
  | Some (low, high) =>
      NutritionAnalysisTool.advice_line (fst finding) (snd finding) low high
  | None => EmptyString
  end.

(** [n] existence checks that fail, each followed by its delay. *)
Fixpoint failed_checks (path : string) (n : nat)
  : list ReadBloodReportTool.event :=
  match n with
  | O => []
  | S k =>
      ReadBloodReportTool.EvIsFile path false
        :: ReadBloodReportTool.EvSleep 1 :: failed_checks path k
  end.

(** A file system where nothing ever exists, and one where everything
    does; paths resolve against [/srv/data]. *)
Definition env_missing : ReadBloodReportTool.Env :=
  ReadBloodReportTool.mkEnv
    (fun p => "/srv/data/" ++ p) (fun _ _ => false)
    (fun _ _ => ReadBloodReportTool.Pages []).

Definition env_present : ReadBloodReportTool.Env :=
  ReadBloodReportTool.mkEnv
    (fun p => "/srv/data/" ++ p) (fun _ _ => true)
    (fun _ _ => ReadBloodReportTool.Pages ["page 1"; "page 2"]).

(** The order of numbers, as propositions. *)
Definition lt (a b : Num.t) : Prop := Num.ltb a b = true.
Definition same (a b : Num.t) : Prop :=
  PyFloat.eqb (Num.value a) (Num.value b) = true.

End Spec.

(** ** [main.py]: the upload handler

    One request, run from its first line to its last: the event loop, the
    other requests and the web framework are outside the model.  The files
    on disk are a [Dict.t string] from path to content, the queued
    background tasks a list.  The crew behind [runner] is the caller's: a
    function that may change the files and returns a response or the
    [str(e)] of the exception it raised. *)

Module Main.

(** [s.rfind(c)]: the highest index of [c], or -1. *)
Fixpoint rfind (c : ascii) (s : string) : Z :=
  match s with
  | EmptyString => (-1)%Z
  | String a r =>
      let i := rfind c r in
      if (0 <=? i)%Z then (i + 1)%Z
      else if Ascii.eqb a c then 0%Z else (-1)%Z
  end.

(** The [while] loop of [genericpath._splitext]: is one of the [steps]
    characters from [filenameIndex] on something else than a dot? *)
Fixpoint name_before_dot (p : string) (filenameIndex : Z) (steps : nat) : bool :=
  match steps with
  | O => false
  | S k =>
      if negb (String.eqb
                 (PyStr.take 1 (PyStr.drop (Z.to_nat filenameIndex) p)) ".")
      then true
      else name_before_dot p (filenameIndex + 1)%Z k
  end.

(** [os.path.splitext(p)] *)
Definition splitext (p : string) : string * string :=
  let sepIndex := rfind "/" p in
  let dotIndex := rfind "." p in
  if (sepIndex <? dotIndex)%Z
     && name_before_dot p (sepIndex + 1)%Z (Z.to_nat (dotIndex - (sepIndex + 1)))
  then (PyStr.take (Z.to_nat dotIndex) p, PyStr.drop (Z.to_nat dotIndex) p)
  else (p, EmptyString).

(** [os.path.join(a, b)] *)
Definition path_join (a b : string) : string :=
  if prefix "/" b then b
  else if PyStr.is_empty a || PyStr.endswith a "/" then a ++ b
  else a ++ "/" ++ b.

Fixpoint lstrip (s : string) : string :=
  match s with
  | String c r => if Re.is_space c then lstrip r else s
  | EmptyString => EmptyString
  end.

(** [s.strip()] *)
Definition strip (s : string) : string :=
  PyStr.rev (lstrip (PyStr.rev (lstrip s))).

(** [len(content)] *)
Definition len (content : string) : N := N.of_nat (String.length content).

(** An [UploadFile]: the client's file name, if any, and the bytes. *)
Record UploadFile : Type := mkUpload {
  filename : option string;
  content : string
}.

(** The dict the handler returns and queues for saving. *)
Record ResultObj : Type := mkResult {
  file_id : string;
  original_filename : option string;
  query : string;
  analysis : string
}.

Inductive outcome : Type :=
| Returned (result_obj : ResultObj)
| HTTPException (status_code : nat) (detail : string)
| Unhandled (e : exn).

Record State : Type := mkState {
  files : Dict.t string;
  background : list (string * ResultObj)
}.

(** [os.remove]'s effect on the files: nothing is left under [path]. *)
Fixpoint remove (d : Dict.t string) (path : string) : Dict.t string :=
  match d with
  | [] => []
  | (k, v) :: rest =>
      if String.eqb k path then remove rest path
      else (k, v) :: remove rest path
  end.

(** [x or default] on an optional string. *)
Definition or_default (x : option string) (default : string) : string :=
  match x with
  | Some (String c r) => String c r
  | _ => default
  end.

Definition str_or (x default : string) : string :=
  if PyStr.is_empty x then default else x.

Definition upload_limit : N := 10000000.

Section Handler.

Variable Response : Type.

(** [repr(response)] *)
Variable repr : Response -> string.

Definition Runner : Type :=
  string -> string -> Dict.t string -> (Response + string) * Dict.t string.

(** [temp_path] as the handler builds it. *)
Definition temp_path_of (data_dir uuid : string) (file : UploadFile) : string :=
  let filename := or_default (filename file) "uploaded_file.pdf" in
  let ext := str_or (snd (splitext filename)) ".pdf" in
  path_join data_dir ("upload_" ++ uuid ++ ext).

(** [process_file_and_run]; [uuid] is [str(uuid.uuid4())]. *)
Definition process_file_and_run (data_dir uuid : string) (file : UploadFile)
           (query : string) (runner : Runner) (default_query : string)
           (st : State) : outcome * State :=
  let file_id := uuid in
  let temp_path := temp_path_of data_dir uuid file in
  (* open(temp_path, 'wb') *)
  let st := mkState (Dict.set (files st) temp_path EmptyString) (background st) in
  if (upload_limit <? len (content file))%N then
    (HTTPException 413 "File too large", st)
  else
    (* out_file.write(content) *)
    let st := mkState (Dict.set (files st) temp_path (content file))
                      (background st) in
    let query := str_or query default_query in
    let query := strip query in
    match runner query temp_path (files st) with
    | (inr detail, fs) => (HTTPException 500 detail, mkState fs (background st))
    | (inl response, fs) =>
        let result_obj :=
          mkResult file_id (filename file) query (repr response) in
        let st := mkState fs (background st ++ [(file_id, result_obj)])%list in
        match Dict.get (files st) temp_path with
        | None =>
            (Unhandled
               (FileNotFoundError
                  ("[Errno 2] No such file or directory: '" ++ temp_path ++ "'")),
             st)
        | Some _ =>
            (Returned result_obj,
             mkState (remove (files st) temp_path) (background st))
        end
    end.

End Handler.


(** A runner that answers, one that fails, neither touching the files. *)
Definition runner_ok : Runner string :=
  fun query path fs => (inl ("analysis of " ++ path), fs).



End Main.

(** ** Vocabulary for the extractor's trace *)

Module Extra.



Definition float_error (bad : string) : exn :=
  ValueError ("could not convert string to float: '" ++ bad ++ "'").

End Extra.

(** * Facts *)

(** ** Strings *)

Section StringFacts.

Lemma append_assoc (a b c : string) : (a ++ b) ++ c = a ++ b ++ c.
Proof. induction a as [|x a IH]; simpl; [reflexivity | now rewrite IH]. Qed.

Lemma length_append (a b : string) :
  String.length (a ++ b) = String.length a + String.length b.
Proof. induction a as [|x a IH]; simpl; [reflexivity | now rewrite IH]. Qed.

Lemma take_append (a b : string) : PyStr.take (String.length a) (a ++ b) = a.
Proof. induction a as [|x a IH]; simpl; [now destruct b | now rewrite IH]. Qed.

Lemma drop_append (a b : string) : PyStr.drop (String.length a) (a ++ b) = b.
Proof. induction a as [|x a IH]; simpl; [reflexivity | exact IH]. Qed.

Lemma take_drop (n : nat) (s : string) : PyStr.take n s ++ PyStr.drop n s = s.
Proof.
  revert s; induction n as [|n IH]; intros [|c s]; simpl; try reflexivity.
  now rewrite IH.
Qed.

Lemma length_take (n : nat) (s : string) :
  n <= String.length s -> String.length (PyStr.take n s) = n.
Proof.
  revert s; induction n as [|n IH]; intros [|c s]; simpl; intros H;
    try reflexivity; try lia.
  rewrite IH; [reflexivity | lia].
Qed.

Lemma span_append (p : ascii -> bool) (s : string) :
  fst (PyStr.span p s) ++ snd (PyStr.span p s) = s.
Proof.
  induction s as [|c s IH]; simpl; [reflexivity|].
  destruct (p c); [|reflexivity].
  destruct (PyStr.span p s) as [a b]; simpl in *. now rewrite IH.
Qed.

Lemma span_all (p : ascii -> bool) (s : string) :
  PyStr.all_chars p (fst (PyStr.span p s)) = true.
Proof.
  induction s as [|c s IH]; simpl; [reflexivity|].
  destruct (p c) eqn:E; [|reflexivity].
  destruct (PyStr.span p s) as [a b]; simpl in *. now rewrite E, IH.
Qed.

Lemma span_rest (p : ascii -> bool) (s : string) :
  Spec.starts_in p (snd (PyStr.span p s)) = false.
Proof.
  induction s as [|c s IH]; simpl; [reflexivity|].
  destruct (p c) eqn:E; [|exact E].
  destruct (PyStr.span p s) as [a b]; simpl in *. exact IH.
Qed.

Lemma span_unique (p : ascii -> bool) (a b : string) :
  PyStr.all_chars p a = true -> Spec.starts_in p b = false ->
  PyStr.span p (a ++ b) = (a, b).
Proof.
  intros Ha Hb. induction a as [|c a IH]; simpl in *.
  - destruct b as [|x b]; simpl in *; [reflexivity | now rewrite Hb].
  - apply andb_true_iff in Ha as [Hc Ha]. now rewrite Hc, (IH Ha).
Qed.

Lemma span_ext (p q : ascii -> bool) (s : string) :
  (forall c, p c = q c) -> PyStr.span p s = PyStr.span q s.
Proof.
  intros E. induction s as [|c s IH]; simpl; [reflexivity|].
  now rewrite E, IH.
Qed.

Lemma span_snd_cons (p : ascii -> bool) (c : ascii) (s : string) :
  p c = true -> snd (PyStr.span p (String c s)) = snd (PyStr.span p s).
Proof. intros E; simpl; rewrite E. now destruct (PyStr.span p s). Qed.

Lemma span_fst_cons (p : ascii -> bool) (c : ascii) (s : string) :
  p c = true ->
  fst (PyStr.span p (String c s)) = String c (fst (PyStr.span p s)).
Proof. intros E; simpl; rewrite E. now destruct (PyStr.span p s). Qed.

Lemma span_length (p : ascii -> bool) (s : string) :
  String.length s
  = String.length (fst (PyStr.span p s)) + String.length (snd (PyStr.span p s)).
Proof. now rewrite <- length_append, span_append. Qed.

Lemma is_empty_true (s : string) : PyStr.is_empty s = true <-> s = "".
Proof. destruct s; simpl; split; congruence. Qed.

Lemma prefix_append (a b : string) : prefix a (a ++ b) = true.
Proof.
  induction a as [|c a IH]; simpl; [now destruct b|].
  destruct (ascii_dec c c) as [_|N]; [exact IH | now elim N].
Qed.

Lemma contains_prefix (needle s : string) :
  prefix needle s = true -> PyStr.contains needle s = true.
Proof. intros H. destruct s; cbn [PyStr.contains]; now rewrite H. Qed.

End StringFacts.

(** ** The matcher on a marker pattern

    The two sets of the pattern share no character, so the backtracking of
    the star never finds a second way to match: the anchored match is a
    plain left-to-right scan. *)

Section RegexFacts.

Lemma in_colon_space (c : ascii) :
  Re.in_set [Re.SetChar ":"; Re.SetSpace] c = Spec.colon_or_space c.
Proof.
  unfold Re.in_set, Spec.colon_or_space; simpl. now rewrite orb_false_r.
Qed.

Lemma in_digit_dot (c : ascii) :
  Re.in_set [Re.SetDigit; Re.SetChar "."] c = Spec.digit_or_dot c.
Proof.
  unfold Re.in_set, Spec.digit_or_dot; simpl. now rewrite orb_false_r.
Qed.

Lemma classes_disjoint (c : ascii) :
  Spec.colon_or_space c = true -> Spec.digit_or_dot c = false.
Proof.
  destruct c as [[] [] [] [] [] [] [] []]; vm_compute; intros H;
    first [reflexivity | discriminate H].
Qed.

Lemma m_star_skips {R : Type} (cs : Re.charset) (k : string -> option R)
      (s : string) :
  (forall a r, Re.in_set cs a = true -> k (String a r) = None) ->
  Re.m_star cs k s = k (snd (PyStr.span (Re.in_set cs) s)).
Proof.
  intros Hk. induction s as [|a s IH]; [reflexivity|].
  cbn [Re.m_star]. destruct (Re.in_set cs a) eqn:E.
  - rewrite (span_snd_cons _ _ _ E), <- IH, (Hk a s E).
    now destruct (Re.m_star cs k s).
  - simpl. now rewrite E.
Qed.

Lemma m_star_greedy {R : Type} (cs : Re.charset) (k : string -> option R)
      (s : string) :
  (forall s', k s' <> None) ->
  Re.m_star cs k s = k (snd (PyStr.span (Re.in_set cs) s)).
Proof.
  intros Hk. induction s as [|a s IH]; [reflexivity|].
  cbn [Re.m_star]. destruct (Re.in_set cs a) eqn:E.
  - rewrite (span_snd_cons _ _ _ E), <- IH.
    destruct (Re.m_star cs k s); [reflexivity|].
    symmetry in IH. now apply Hk in IH.
  - simpl. now rewrite E.
Qed.

Lemma m_nodes_literal {R : Type} (nm : string) (rest : Re.regex)
      (g : option string) (k : option string -> string -> option R)
      (s : string) :
  Re.m_nodes (Re.literal nm ++ rest)%list g k s
  = match Spec.strip_name nm s with
    | Some s' => Re.m_nodes rest g k s'
    | None => None
    end.
Proof.
  revert s. induction nm as [|c nm IH]; intros s; [reflexivity|].
  destruct s as [|a s]; [reflexivity|].
  cbn. destruct (Re.ci_eqb c a); [apply IH | reflexivity].
Qed.

Lemma take_span (p : ascii -> bool) (a : ascii) (r : string) :
  PyStr.take
    (String.length (String a r) - String.length (snd (PyStr.span p r)))
    (String a r)
  = String a (fst (PyStr.span p r)).
Proof.
  cbn [String.length]. rewrite (span_length p r).
  replace (S (String.length (fst (PyStr.span p r))
              + String.length (snd (PyStr.span p r)))
           - String.length (snd (PyStr.span p r)))
    with (S (String.length (fst (PyStr.span p r)))) by lia.
  cbn [PyStr.take]. f_equal.
  rewrite <- (span_append p r) at 2. apply take_append.
Qed.

(** The anchored match is the scan, and group 1 always takes part. *)
Lemma match_here_marker (marker s : string) :
  Re.match_here (NutritionAnalysisTool.marker_pattern marker) s
  = option_map Some (Spec.scan_here marker s).
Proof.
  unfold Re.match_here, NutritionAnalysisTool.marker_pattern, Spec.scan_here.
  rewrite m_nodes_literal.
  destruct (Spec.strip_name marker s) as [s1|]; [|reflexivity].
  cbn [Re.m_nodes Re.m_item Re.m_items].
  rewrite m_star_skips.
  - rewrite (span_ext _ _ s1 in_colon_space).
    destruct (snd (PyStr.span Spec.colon_or_space s1)) as [|a r];
      [reflexivity|].
    rewrite in_digit_dot.
    destruct (Spec.digit_or_dot a) eqn:E.
    + rewrite (span_fst_cons _ _ _ E). cbn [PyStr.is_empty option_map].
      rewrite m_star_greedy by discriminate.
      rewrite (span_ext _ _ r in_digit_dot).
      now rewrite take_span.
    + simpl. now rewrite E.
  - intros a r Ha. rewrite in_colon_space in Ha.
    rewrite in_digit_dot, (classes_disjoint a Ha). reflexivity.
Qed.

Lemma strip_name_some (marker s s1 : string) :
  Spec.strip_name marker s = Some s1 <->
  exists nm, s = nm ++ s1 /\ Spec.same_name marker nm = true.
Proof.
  revert s. induction marker as [|c marker IH]; intros s; simpl.
  - split.
    + intros [= <-]. now exists "".
    + intros ([|x nm] & -> & H); [reflexivity | discriminate].
  - destruct s as [|a s].
    + split; [discriminate|]. intros ([|x nm] & E & H); discriminate.
    + destruct (Re.ci_eqb c a) eqn:Ec.
      * rewrite IH. split.
        -- intros (nm & -> & H). exists (String a nm). simpl.
           now rewrite Ec, H.
        -- intros ([|x nm] & E & H); [discriminate|].
           simpl in E. injection E as -> ->.
           apply andb_true_iff in H as [_ H]. now exists nm.
      * split; [discriminate|].
        intros ([|x nm] & E & H); [discriminate|].
        simpl in E. injection E as -> ->.
        rewrite Ec in H. discriminate.
Qed.

(** The scan finds exactly what the specification describes. *)
Lemma scan_here_spec (marker s number : string) :
  Spec.scan_here marker s = Some number <->
  exists nm sep rest,
    s = nm ++ sep ++ number ++ rest
    /\ Spec.same_name marker nm = true
    /\ PyStr.all_chars Spec.colon_or_space sep = true
    /\ number <> ""
    /\ PyStr.all_chars Spec.digit_or_dot number = true
    /\ Spec.starts_in Spec.digit_or_dot rest = false.
Proof.
  unfold Spec.scan_here. split.
  - destruct (Spec.strip_name marker s) as [s1|] eqn:E1; [|discriminate].
    apply strip_name_some in E1 as (nm & -> & Hnm).
    destruct (PyStr.is_empty _) eqn:Ee; [discriminate|]. intros [= <-].
    exists nm, (fst (PyStr.span Spec.colon_or_space s1)),
      (snd (PyStr.span Spec.digit_or_dot
              (snd (PyStr.span Spec.colon_or_space s1)))).
    rewrite span_append, span_append. repeat split; auto using span_all, span_rest.
    intros H. apply is_empty_true in H. congruence.
  - intros (nm & sep & rest & -> & Hnm & Hsep & Hne & Hnum & Hrest).
    assert (E1 : Spec.strip_name marker (nm ++ sep ++ number ++ rest)
                 = Some (sep ++ number ++ rest))
      by (apply strip_name_some; now exists nm).
    rewrite E1.
    assert (Hs : Spec.starts_in Spec.colon_or_space (number ++ rest) = false).
    { destruct number as [|c number]; [congruence|]. simpl in *.
      apply andb_true_iff in Hnum as [Hc _].
      destruct (Spec.colon_or_space c) eqn:F; [|reflexivity].
      apply classes_disjoint in F. congruence. }
    rewrite (span_unique _ _ _ Hsep Hs). cbn [snd].
    rewrite (span_unique _ _ _ Hnum Hrest). cbn [fst].
    destruct number; [congruence | reflexivity].
Qed.

End RegexFacts.

(** ** The search: the leftmost place where the pattern matches *)

Section SearchFacts.

Lemma search_from_first (r : Re.regex) (pos : nat) (s : string) (i : nat)
      (g : option string) :
  i <= String.length s ->
  Re.match_here r (PyStr.drop i s) = Some g ->
  (forall j, j < i -> Re.match_here r (PyStr.drop j s) = None) ->
  Re.search_from r pos s = Some (Re.mkMatch (pos + i) g).
Proof.
  revert pos s. induction i as [|i IH]; intros pos s Hi Hm Hfirst.
  - simpl in Hm. destruct s; simpl; rewrite Hm; now rewrite Nat.add_0_r.
  - destruct s as [|c s]; [simpl in Hi; lia|].
    cbn [Re.search_from].
    assert (H0 : Re.match_here r (String c s) = None)
      by (apply (Hfirst 0); lia).
    rewrite H0.
    rewrite (IH (S pos) s).
    + do 2 f_equal. lia.
    + simpl in Hi. lia.
    + exact Hm.
    + intros j Hj. apply (Hfirst (S j)). lia.
Qed.

Lemma search_from_some (r : Re.regex) (pos : nat) (s : string) (m : Re.Match) :
  Re.search_from r pos s = Some m ->
  exists i,
    i <= String.length s /\ Re.m_start m = pos + i
    /\ Re.match_here r (PyStr.drop i s) = Some (Re.group1 m)
    /\ forall j, j < i -> Re.match_here r (PyStr.drop j s) = None.
Proof.
  revert pos. induction s as [|c s IH]; intros pos; cbn [Re.search_from].
  - destruct (Re.match_here r "") as [g|] eqn:E; [|discriminate].
    intros [= <-]. exists 0. simpl. repeat split; auto; lia.
  - destruct (Re.match_here r (String c s)) as [g|] eqn:E.
    + intros [= <-]. exists 0. simpl. repeat split; auto; lia.
    + intros H. apply IH in H as (i & Hi & Hs & Hm & Hfirst).
      exists (S i). simpl. repeat split; try lia; auto.
      intros [|j] Hj; [exact E | apply Hfirst; lia].
Qed.

Lemma search_from_none (r : Re.regex) (pos : nat) (s : string) :
  Re.search_from r pos s = None ->
  forall i, i <= String.length s -> Re.match_here r (PyStr.drop i s) = None.
Proof.
  revert pos. induction s as [|c s IH]; intros pos; cbn [Re.search_from].
  - destruct (Re.match_here r "") eqn:E; [discriminate|].
    intros _ [|i] Hi; [exact E | simpl in Hi; lia].
  - destruct (Re.match_here r (String c s)) eqn:E; [discriminate|].
    intros H [|i] Hi; [exact E|]. simpl. apply (IH _ H). simpl in Hi; lia.
Qed.

Lemma search_from_none_intro (r : Re.regex) (pos : nat) (s : string) :
  (forall i, i <= String.length s ->
             Re.match_here r (PyStr.drop i s) = None) ->
  Re.search_from r pos s = None.
Proof.
  intros H. destruct (Re.search_from r pos s) as [m|] eqn:E; [|reflexivity].
  apply search_from_some in E as (i & Hi & _ & Hm & _).
  rewrite (H i Hi) in Hm. discriminate.
Qed.

Lemma occurs_at_scan (marker text : string) (i : nat) (number : string) :
  Spec.occurs_at marker text i number <->
  i <= String.length text
  /\ Spec.scan_here marker (PyStr.drop i text) = Some number.
Proof.
  unfold Spec.occurs_at. split.
  - intros (pre & nm & sep & rest & -> & <- & H).
    split; [rewrite length_append; lia|].
    rewrite drop_append. apply scan_here_spec. now exists nm, sep, rest.
  - intros [Hi H]. apply scan_here_spec in H as (nm & sep & rest & E & H).
    exists (PyStr.take i text), nm, sep, rest. rewrite <- E, take_drop.
    split; [reflexivity|]. split; [now apply length_take | exact H].
Qed.

Lemma search_first_occurrence (marker text : string) (i : nat)
      (number : string) :
  Spec.first_occurrence marker text i number ->
  Re.search (NutritionAnalysisTool.marker_pattern marker) text
  = Some (Re.mkMatch i (Some number)).
Proof.
  intros [Ho Hfirst]. apply occurs_at_scan in Ho as [Hi Hs].
  unfold Re.search. apply (search_from_first _ 0 text i); auto.
  - now rewrite match_here_marker, Hs.
  - intros j Hj. rewrite match_here_marker.
    destruct (Spec.scan_here marker (PyStr.drop j text)) as [other|] eqn:E;
      [|reflexivity].
    exfalso. apply (Hfirst j other Hj). apply occurs_at_scan. split; [lia|auto].
Qed.

Lemma search_some_occurrence (marker text : string) (m : Re.Match) :
  Re.search (NutritionAnalysisTool.marker_pattern marker) text = Some m ->
  exists number,
    Re.group1 m = Some number
    /\ Spec.first_occurrence marker text (Re.m_start m) number.
Proof.
  intros H. apply search_from_some in H as (i & Hi & Hs & Hm & Hfirst).
  simpl in Hs. subst i. rewrite match_here_marker in Hm.
  destruct (Spec.scan_here marker (PyStr.drop (Re.m_start m) text))
    as [number|] eqn:E; [|discriminate].
  injection Hm as Hm. exists number. split; [now symmetry|]. split.
  - apply occurs_at_scan. now split.
  - intros j other Hj Ho. apply occurs_at_scan in Ho as [_ Ho].
    specialize (Hfirst j Hj). rewrite match_here_marker, Ho in Hfirst.
    discriminate.
Qed.

Lemma search_none_iff (marker text : string) :
  Re.search (NutritionAnalysisTool.marker_pattern marker) text = None <->
  forall i number, ~ Spec.occurs_at marker text i number.
Proof.
  split.
  - intros H i number Ho. apply occurs_at_scan in Ho as [Hi Hs].
    apply (search_from_none _ _ _ H) in Hi.
    rewrite match_here_marker, Hs in Hi. discriminate.
  - intros H. apply search_from_none_intro. intros i Hi.
    rewrite match_here_marker.
    destruct (Spec.scan_here marker (PyStr.drop i text)) as [n|] eqn:E;
      [|reflexivity].
    exfalso. apply (H i n). apply occurs_at_scan. now split.
Qed.


End SearchFacts.

(** ** The order on numbers *)

Section OrderFacts.

Lemma ltb_fin (x y : Q) :
  PyFloat.ltb (PyFloat.Fin x) (PyFloat.Fin y) = true <-> (x < y)%Q.
Proof.
  simpl. rewrite negb_true_iff. split.
  - intros H. apply Qnot_le_lt. intros L.
    apply Qle_bool_iff in L. congruence.
  - intros H. destruct (Qle_bool y x) eqn:E; [|reflexivity].
    apply Qle_bool_iff in E. elim (Qlt_not_le _ _ H E).
Qed.

Lemma ltb_trans (a b c : PyFloat.t) :
  PyFloat.ltb a b = true -> PyFloat.ltb b c = true -> PyFloat.ltb a c = true.
Proof.
  destruct a as [x|], b as [y|], c as [z|]; try (simpl; congruence).
  rewrite !ltb_fin. apply Qlt_trans.
Qed.

Lemma ltb_asym (a b : PyFloat.t) :
  PyFloat.ltb a b = true -> PyFloat.ltb b a = false.
Proof.
  destruct a as [x|], b as [y|]; try (simpl; congruence).
  intros H. apply ltb_fin in H.
  destruct (PyFloat.ltb (PyFloat.Fin y) (PyFloat.Fin x)) eqn:E;
    [|reflexivity].
  apply ltb_fin in E. elim (Qlt_irrefl x). now apply Qlt_trans with y.
Qed.

Lemma eqb_ltb_l (a b c : PyFloat.t) :
  PyFloat.eqb a b = true -> PyFloat.ltb a c = PyFloat.ltb b c.
Proof.
  destruct a as [x|], b as [y|], c as [z|]; try (simpl; congruence).
  intros H. apply Qeq_bool_iff in H.
  destruct (PyFloat.ltb (PyFloat.Fin y) (PyFloat.Fin z)) eqn:E.
  - apply ltb_fin. apply ltb_fin in E. now rewrite H.
  - destruct (PyFloat.ltb (PyFloat.Fin x) (PyFloat.Fin z)) eqn:F;
      [|reflexivity].
    apply ltb_fin in F. rewrite H in F. apply ltb_fin in F. congruence.
Qed.

Lemma eqb_ltb_r (a b c : PyFloat.t) :
  PyFloat.eqb a b = true -> PyFloat.ltb c a = PyFloat.ltb c b.
Proof.
  destruct a as [x|], b as [y|], c as [z|]; try (simpl; congruence).
  intros H. apply Qeq_bool_iff in H.
  destruct (PyFloat.ltb (PyFloat.Fin z) (PyFloat.Fin y)) eqn:E.
  - apply ltb_fin. apply ltb_fin in E. now rewrite H.
  - destruct (PyFloat.ltb (PyFloat.Fin z) (PyFloat.Fin x)) eqn:F;
      [|reflexivity].
    apply ltb_fin in F. rewrite H in F. apply ltb_fin in F. congruence.
Qed.

Lemma ltb_irrefl (a : PyFloat.t) : PyFloat.ltb a a = false.
Proof.
  destruct (PyFloat.ltb a a) eqn:E; [|reflexivity].
  now rewrite (ltb_asym _ _ E) in E.
Qed.

(** Every range of the table has its low bound below its high bound. *)
Lemma table_ranges_ordered (marker : string) (low high : Num.t) :
  Dict.get NutritionAnalysisTool.reference_ranges marker = Some (low, high) ->
  Num.ltb low high = true.
Proof.
  unfold NutritionAnalysisTool.reference_ranges. cbn [Dict.get].
  destruct (String.eqb "Hemoglobin" marker).
  - intros [= <- <-]. vm_compute. reflexivity.
  - destruct (String.eqb "Cholesterol" marker); [|discriminate].
    intros [= <- <-]. vm_compute. reflexivity.
Qed.

End OrderFacts.

(** ** The two finder loops, step by step *)

Section FinderFacts.

Import NutritionAnalysisTool.

Lemma chol_pattern_eq :
  ExercisePlanningTool.chol_pattern = marker_pattern "Cholesterol".
Proof. reflexivity. Qed.

Lemma hemo_pattern_eq :
  ExercisePlanningTool.hemo_pattern = marker_pattern "Hemoglobin".
Proof. reflexivity. Qed.

(** The first loop of the nutrition tool: one step per table entry. *)
Lemma find_markers_eq (text : string) :
  find_markers text
  = (h <- Spec.matched_value (marker_pattern "Hemoglobin") text ;;
     c <- Spec.matched_value (marker_pattern "Cholesterol") text ;;
     Ok (Spec.entry "Hemoglobin" h ++ Spec.entry "Cholesterol" c)%list)%py.
Proof.
  unfold find_markers, reference_ranges, Spec.matched_value.
  cbn [find_loop].
  destruct (Re.search (marker_pattern "Hemoglobin") text) as [mh|];
    destruct (Re.search (marker_pattern "Cholesterol") text) as [mc|];
    cbn [bind];
    try destruct (py_float (Re.group1 mh)) as [vh|eh]; cbn [bind];
    try destruct (py_float (Re.group1 mc)) as [vc|ec]; cbn [bind];
    reflexivity.
Qed.

(** The exercise tool: the same two steps, cholesterol first. *)
Lemma build_plan_eq (text : string) :
  ExercisePlanningTool.build_plan text
  = (c <- Spec.matched_value (marker_pattern "Cholesterol") text ;;
     h <- Spec.matched_value (marker_pattern "Hemoglobin") text ;;
     Ok (Spec.expected_plan (Spec.chol_above c) (Spec.hemo_below h)))%py.
Proof.
  unfold ExercisePlanningTool.build_plan, Spec.matched_value,
    ExercisePlanningTool.chol_high, ExercisePlanningTool.hemo_low.
  rewrite chol_pattern_eq, hemo_pattern_eq.
  destruct (Re.search (marker_pattern "Cholesterol") text) as [mc|];
    destruct (Re.search (marker_pattern "Hemoglobin") text) as [mh|];
    cbn [bind];
    try destruct (py_float (Re.group1 mc)) as [vc|ec]; cbn [bind];
    try destruct (py_float (Re.group1 mh)) as [vh|eh]; cbn [bind];
    try reflexivity;
    cbn [Spec.chol_above Spec.hemo_below];
    try destruct (Num.gtb (Num.Flt vc) (Num.Int 200));
    try destruct (Num.ltb (Num.Flt vh) (Num.Flt (PyFloat.literal "13.5")));
    reflexivity.
Qed.

(** One step: no occurrence and no value, or the first occurrence and
    what [float] makes of its run. *)
Lemma matched_value_cases (marker text : string) :
  ((forall i number, ~ Spec.occurs_at marker text i number)
   /\ Spec.matched_value (marker_pattern marker) text = Ok None)
  \/ (exists i number,
        Spec.first_occurrence marker text i number
        /\ Re.search (marker_pattern marker) text
           = Some (Re.mkMatch i (Some number))
        /\ Spec.matched_value (marker_pattern marker) text
           = match PyFloat.of_str number with
             | Some v => Ok (Some v)
             | None =>
                 Raise (ValueError
                   ("could not convert string to float: '" ++ number ++ "'"))
             end).
Proof.
  unfold Spec.matched_value.
  destruct (Re.search (marker_pattern marker) text) as [m|] eqn:E.
  - right. destruct (search_some_occurrence _ _ _ E) as (number & Hg & Hf).
    exists (Re.m_start m), number. split; [exact Hf|]. split.
    + destruct m as [st g]. simpl in *. now subst g.
    + rewrite Hg. unfold py_float.
      destruct (PyFloat.of_str number); reflexivity.
  - left. split; [now apply search_none_iff | reflexivity].
Qed.

(** A step raises nothing but the [ValueError] of [float]. *)
Lemma matched_value_raise (marker text : string) (e : exn) :
  Spec.matched_value (marker_pattern marker) text = Raise e ->
  exists i number,
    Spec.first_occurrence marker text i number
    /\ PyFloat.of_str number = None
    /\ e = ValueError ("could not convert string to float: '" ++ number ++ "'").
Proof.
  intros H.
  destruct (matched_value_cases marker text)
    as [[_ E] | (i & number & Hf & _ & E)]; rewrite E in H; [discriminate|].
  exists i, number. split; [exact Hf|].
  destruct (PyFloat.of_str number); [discriminate|].
  split; [reflexivity | congruence].
Qed.

Lemma advice_loop_map (items : Dict.t PyFloat.t) (acc : list string) :
  (forall k, In k (Dict.keys items) -> Dict.get reference_ranges k <> None) ->
  advice_loop items acc
  = Ok (acc ++ map (Spec.line_of reference_ranges) items)%list.
Proof.
  revert acc. induction items as [|[k v] items IH]; intros acc H.
  - simpl. now rewrite app_nil_r.
  - cbn [advice_loop map]. unfold Spec.line_of at 1. cbn [fst snd].
    destruct (Dict.get reference_ranges k) as [[low high]|] eqn:E.
    + rewrite IH.
      * now rewrite <- app_assoc.
      * intros k' Hk. apply H. now right.
    + elim (H k); [now left | exact E].
Qed.

Lemma compose_eq (items : Dict.t PyFloat.t) :
  (forall k, In k (Dict.keys items) -> Dict.get reference_ranges k <> None) ->
  compose items
  = Ok match items with
       | [] => no_markers
       | _ => PyStr.join (nl ++ nl) (map (Spec.line_of reference_ranges) items)
       end.
Proof.
  intros H. unfold compose. rewrite (advice_loop_map _ _ H). cbn [bind app].
  destruct items as [|[k v] items]; reflexivity.
Qed.

Lemma entries_in_table (h c : option PyFloat.t) (k : string) :
  In k (Dict.keys (Spec.entry "Hemoglobin" h ++ Spec.entry "Cholesterol" c)%list) ->
  Dict.get reference_ranges k <> None.
Proof.
  destruct h, c; simpl; intros H; repeat destruct H as [<-|H];
    try contradiction; discriminate.
Qed.

(** The whole nutrition tool in terms of its two steps. *)
Lemma nutrition_run_eq (text : string) :
  _run text
  = (h <- Spec.matched_value (marker_pattern "Hemoglobin") text ;;
     c <- Spec.matched_value (marker_pattern "Cholesterol") text ;;
     compose (Spec.entry "Hemoglobin" h ++ Spec.entry "Cholesterol" c)%list)%py.
Proof.
  unfold _run. rewrite find_markers_eq.
  destruct (Spec.matched_value (marker_pattern "Hemoglobin") text);
    [|reflexivity].
  destruct (Spec.matched_value (marker_pattern "Cholesterol") text);
    reflexivity.
Qed.

End FinderFacts.

(** ** The wait for the uploaded file *)

Section ExtractorFacts.

Import ReadBloodReportTool.

Variable env : Env.

Lemma wait_found (attempts : list nat) (p : string) (w : World) (k : nat) :
  k < List.length attempts ->
  isfile env (now w + k) p = true ->
  (forall j, j < k -> isfile env (now w + j) p = false) ->
  wait_for_file env attempts p w
  = (Ok true,
     mkWorld (now w + k)
             (trace w ++ Spec.failed_checks p k ++ [EvIsFile p true])).
Proof.
  revert attempts w. induction k as [|k IH]; intros [|a attempts] w Hk Hk1 Hlt;
    try (simpl in Hk; lia).
  - cbn [wait_for_file]. unfold mbind, os_path_isfile.
    rewrite Nat.add_0_r in Hk1. rewrite Hk1. unfold ret, emit.
    now rewrite Nat.add_0_r.
  - cbn [wait_for_file]. unfold mbind at 1, os_path_isfile.
    assert (H0 : isfile env (now w) p = false)
      by (rewrite <- (Nat.add_0_r (now w)); apply Hlt; lia).
    rewrite H0. unfold mbind at 1, time_sleep.
    rewrite (IH attempts); cbn [now trace emit].
    + f_equal. f_equal; [lia|]. cbn [Spec.failed_checks].
      rewrite <- !app_assoc. reflexivity.
    + simpl in Hk. lia.
    + rewrite <- Hk1. f_equal. lia.
    + intros j Hj. rewrite <- (Hlt (S j)) by lia. f_equal. lia.
Qed.

Lemma wait_missing (attempts : list nat) (p : string) (w : World) :
  (forall k, k < List.length attempts -> isfile env (now w + k) p = false) ->
  wait_for_file env attempts p w
  = (Ok false,
     mkWorld (now w + List.length attempts)
             (trace w ++ Spec.failed_checks p (List.length attempts))).
Proof.
  revert w. induction attempts as [|a attempts IH]; intros w H.
  - simpl. unfold ret. destruct w as [t tr]; simpl.
    now rewrite Nat.add_0_r, app_nil_r.
  - cbn [wait_for_file]. unfold mbind at 1, os_path_isfile.
    assert (H0 : isfile env (now w) p = false)
      by (rewrite <- (Nat.add_0_r (now w)); apply H; simpl; lia).
    rewrite H0. unfold mbind at 1, time_sleep.
    rewrite IH; cbn [now trace emit List.length].
    + f_equal. f_equal; [lia|]. cbn [Spec.failed_checks].
      rewrite <- !app_assoc. reflexivity.
    + intros k Hk. rewrite <- (H (S k)) by (simpl; lia). f_equal. lia.
Qed.

(** The loop either finds the file at some check or fails them all. *)
Lemma wait_cases (attempts : list nat) (p : string) (w : World) :
  (exists k, k < List.length attempts
             /\ isfile env (now w + k) p = true
             /\ forall j, j < k -> isfile env (now w + j) p = false)
  \/ (forall k, k < List.length attempts -> isfile env (now w + k) p = false).
Proof.
  induction (List.length attempts) as [|n IH].
  - right. intros k Hk. lia.
  - destruct IH as [(k & Hk & H1 & H2) | H].
    + left. exists k. repeat split; auto.
    + destruct (isfile env (now w + n) p) eqn:E.
      * left. exists n. repeat split; auto.
      * right. intros k Hk. destruct (Nat.eq_dec k n) as [->|N]; [exact E|].
        apply H. lia.
Qed.

End ExtractorFacts.

(** ** [ReadBloodReportTool._run] *)

Section Extractor.

Import ReadBloodReportTool.

(** A file found at check [k] (counted from 0): the extension is tested
    next, and only a [.pdf] reaches the loader. *)
Lemma run_found (env : Env) (path : string) (w : World) (k : nat) :
  let p := abspath env path in
  let w1 := mkWorld (now w + k)
              (trace w ++ Spec.failed_checks p k ++ [EvIsFile p true]) in
  k < 3 ->
  isfile env (now w + k) p = true ->
  (forall j, j < k -> isfile env (now w + j) p = false) ->
  _run env path w
  = if PyStr.endswith (PyStr.lower p) ".pdf" then
      (match pdf_load env (now w + k) p with
       | Pages page_contents => Ok (PyStr.join nl page_contents)
       | LoadError msg => Raise (ValueError ("Error reading PDF file: " ++ msg))
       end, emit (EvLoad p) w1)
    else (Raise (ValueError "File must be a PDF"), w1).
Proof.
  intros p w1 Hk H1 H2. unfold _run. fold p. unfold mbind at 1.
  rewrite (wait_found env _ p w k); auto. cbn [negb].
  destruct (PyStr.endswith (PyStr.lower p) ".pdf"); cbn [negb];
    [|reflexivity].
  unfold mbind, loader_load. cbn [now].
  destruct (pdf_load env (now w + k) p); reflexivity.
Qed.

(** A file found at none of the three checks. *)
Lemma run_missing (env : Env) (path : string) (w : World) :
  let p := abspath env path in
  (forall k, k < 3 -> isfile env (now w + k) p = false) ->
  _run env path w
  = (Raise (FileNotFoundError ("File not found after 3 attempts: " ++ p)),
     mkWorld (now w + 3) (trace w ++ Spec.failed_checks p 3)).
Proof.
  intros p H. unfold _run. fold p. unfold mbind at 1.
  rewrite (wait_missing env _ p w); auto.
Qed.

End Extractor.

(** C3.  For every path (with the [.pdf] extension or not) whose file exists
    at none of the three checks, [_run] checks the resolved absolute path
    three times, sleeps one unit after each failed check, and then raises
    [FileNotFoundError] with the message "File not found after 3 attempts:"
    followed by the resolved path.  Conversely a [FileNotFoundError] is only
    ever raised after these three failed checks and their delays. *)
Theorem extract_missing_file_fails_after_full_retry
        (env : ReadBloodReportTool.Env) (path : string)
        (w : ReadBloodReportTool.World) :
  let p := ReadBloodReportTool.abspath env path in
  let after :=
    ReadBloodReportTool.mkWorld
      (ReadBloodReportTool.now w + 3)
      (ReadBloodReportTool.trace w
         ++ [ReadBloodReportTool.EvIsFile p false; ReadBloodReportTool.EvSleep 1;
             ReadBloodReportTool.EvIsFile p false; ReadBloodReportTool.EvSleep 1;
             ReadBloodReportTool.EvIsFile p false; ReadBloodReportTool.EvSleep 1])%list in
  ((forall k, k < 3 ->
      ReadBloodReportTool.isfile env (ReadBloodReportTool.now w + k) p = false) ->
   ReadBloodReportTool._run env path w
   = (Raise (FileNotFoundError ("File not found after 3 attempts: " ++ p)), after))
  /\ (forall msg w',
        ReadBloodReportTool._run env path w = (Raise (FileNotFoundError msg), w') ->
        (forall k, k < 3 ->
           ReadBloodReportTool.isfile env (ReadBloodReportTool.now w + k) p = false)
        /\ msg = "File not found after 3 attempts: " ++ p
        /\ w' = after
        /\ ReadBloodReportTool.isfile_count
             (ReadBloodReportTool.trace after)
           = ReadBloodReportTool.isfile_count (ReadBloodReportTool.trace w) + 3
        /\ ReadBloodReportTool.sleep_total
             (ReadBloodReportTool.trace after)
           = ReadBloodReportTool.sleep_total (ReadBloodReportTool.trace w) + 3).
Proof.
  intros p after. split.
  - intros H. now rewrite (run_missing env path w H).
  - intros msg w' Hrun.
    destruct (wait_cases env (seq 0 ReadBloodReportTool.max_attempts) p w)
      as [(k & Hk & H1 & H2) | H].
    + exfalso. rewrite (run_found env path w k Hk H1 H2) in Hrun. fold p in Hrun.
      destruct (PyStr.endswith (PyStr.lower p) ".pdf").
      * destruct (ReadBloodReportTool.pdf_load env _ p); discriminate.
      * discriminate.
    + assert (H3 : forall k, k < 3 ->
                ReadBloodReportTool.isfile env (ReadBloodReportTool.now w + k) p
                = false) by exact H.
      rewrite (run_missing env path w H3) in Hrun. fold p in Hrun.
      injection Hrun as <- <-. repeat split; auto.
      * unfold after, ReadBloodReportTool.isfile_count. cbn [ReadBloodReportTool.trace].
        rewrite filter_app, length_app. reflexivity.
      * unfold after, ReadBloodReportTool.sleep_total. cbn [ReadBloodReportTool.trace].
        rewrite fold_right_app. cbn [fold_right].
        generalize (ReadBloodReportTool.trace w). intros tr.
        induction tr as [|[q b|n|q] tr IH]; cbn [fold_right]; lia.
Qed.

(** A report that never shows up under [/srv/data]. *)
Lemma extract_missing_file_witness :
  ReadBloodReportTool.call Spec.env_missing "report.pdf"
  = (Raise (FileNotFoundError
              "File not found after 3 attempts: /srv/data/report.pdf"),
     ReadBloodReportTool.mkWorld 3
       [ReadBloodReportTool.EvIsFile "/srv/data/report.pdf" false;
        ReadBloodReportTool.EvSleep 1;
        ReadBloodReportTool.EvIsFile "/srv/data/report.pdf" false;
        ReadBloodReportTool.EvSleep 1;
        ReadBloodReportTool.EvIsFile "/srv/data/report.pdf" false;
        ReadBloodReportTool.EvSleep 1]).
Proof.
  apply (proj1 (extract_missing_file_fails_after_full_retry
                  Spec.env_missing "report.pdf"
                  (ReadBloodReportTool.mkWorld 0 []))).
  intros k Hk. reflexivity.
Defined.

(** C1, the claim as stated, fails: a path ending in [.txt] whose file never
    exists is checked three times, with three one-unit delays, and the call
    ends in [FileNotFoundError], not in the format error. *)
Lemma wrong_extension_is_checked_after_the_wait :
  PyStr.endswith
    (PyStr.lower (ReadBloodReportTool.abspath Spec.env_missing "notes.txt"))
    ".pdf" = false
  /\ fst (ReadBloodReportTool.call Spec.env_missing "notes.txt")
     = Raise (FileNotFoundError
                "File not found after 3 attempts: /srv/data/notes.txt")
  /\ ReadBloodReportTool.isfile_count
       (ReadBloodReportTool.trace
          (snd (ReadBloodReportTool.call Spec.env_missing "notes.txt"))) = 3
  /\ ReadBloodReportTool.sleep_total
       (ReadBloodReportTool.trace
          (snd (ReadBloodReportTool.call Spec.env_missing "notes.txt"))) = 3.
Proof. vm_compute. repeat split. Qed.

(** C1, as amended.  For every path whose resolved name does not end in
    [.pdf] in any case, [_run] runs the existence checks first.  If check
    [k] (counted from 0, so after [k] failed checks and their [k] delays)
    finds the file, the call fails right then with
    [ValueError "File must be a PDF"], with no further check or delay and
    without calling the loader; with the file there at the first check that
    is one check and no delay.  If no check finds the file the call fails
    with [FileNotFoundError] after three checks and three delays. *)
Theorem extract_wrong_extension
        (env : ReadBloodReportTool.Env) (path : string)
        (w : ReadBloodReportTool.World) :
  let p := ReadBloodReportTool.abspath env path in
  PyStr.endswith (PyStr.lower p) ".pdf" = false ->
  (forall k, k < 3 ->
     ReadBloodReportTool.isfile env (ReadBloodReportTool.now w + k) p = true ->
     (forall j, j < k ->
        ReadBloodReportTool.isfile env (ReadBloodReportTool.now w + j) p = false) ->
     ReadBloodReportTool._run env path w
     = (Raise (ValueError "File must be a PDF"),
        ReadBloodReportTool.mkWorld
          (ReadBloodReportTool.now w + k)
          (ReadBloodReportTool.trace w ++ Spec.failed_checks p k
             ++ [ReadBloodReportTool.EvIsFile p true])%list))
  /\ ((forall k, k < 3 ->
         ReadBloodReportTool.isfile env (ReadBloodReportTool.now w + k) p = false) ->
      ReadBloodReportTool._run env path w
      = (Raise (FileNotFoundError ("File not found after 3 attempts: " ++ p)),
         ReadBloodReportTool.mkWorld
           (ReadBloodReportTool.now w + 3)
           (ReadBloodReportTool.trace w ++ Spec.failed_checks p 3)%list)).
Proof.
  intros p Hext. split.
  - intros k Hk H1 H2. rewrite (run_found env path w k Hk H1 H2).
    fold p. now rewrite Hext.
  - intros H. exact (run_missing env path w H).
Qed.

(** A text file that is there at the first check: one check, no delay. *)
Lemma extract_wrong_extension_witness :
  ReadBloodReportTool.call Spec.env_present "notes.TXT"
  = (Raise (ValueError "File must be a PDF"),
     ReadBloodReportTool.mkWorld 0
       [ReadBloodReportTool.EvIsFile "/srv/data/notes.TXT" true]).
Proof.
  apply (proj1 (extract_wrong_extension
                  Spec.env_present "notes.TXT"
                  (ReadBloodReportTool.mkWorld 0 []) eq_refl) 0).
  - lia.
  - reflexivity.
  - intros j Hj. lia.
Defined.

(** ** Malformed numbers *)

Section Malformed.

Import NutritionAnalysisTool.

Lemma matched_value_first (marker text : string) (i : nat) (number : string) :
  Spec.first_occurrence marker text i number ->
  Spec.matched_value (marker_pattern marker) text
  = match PyFloat.of_str number with
    | Some v => Ok (Some v)
    | None =>
        Raise (ValueError
                 ("could not convert string to float: '" ++ number ++ "'"))
    end.
Proof.
  intros Hf. unfold Spec.matched_value.
  rewrite (search_first_occurrence _ _ _ _ Hf). cbn [Re.group1 py_float].
  destruct (PyFloat.of_str number); reflexivity.
Qed.


(** Both tools return exactly when both steps do. *)
Lemma tools_return (text : string) (h c : option PyFloat.t) :
  Spec.matched_value (marker_pattern "Hemoglobin") text = Ok h ->
  Spec.matched_value (marker_pattern "Cholesterol") text = Ok c ->
  find_markers text
  = Ok (Spec.entry "Hemoglobin" h ++ Spec.entry "Cholesterol" c)%list
  /\ _run text
     = compose (Spec.entry "Hemoglobin" h ++ Spec.entry "Cholesterol" c)%list
  /\ ExercisePlanningTool.build_plan text
     = Ok (Spec.expected_plan (Spec.chol_above c) (Spec.hemo_below h)).
Proof.
  intros Hh Hc.
  rewrite find_markers_eq, nutrition_run_eq, build_plan_eq, Hh, Hc.
  repeat split.
Qed.


Lemma find_markers_values (text : string) (fs : Dict.t PyFloat.t) :
  find_markers text = Ok fs ->
  exists h c,
    Spec.matched_value (marker_pattern "Hemoglobin") text = Ok h
    /\ Spec.matched_value (marker_pattern "Cholesterol") text = Ok c
    /\ fs = (Spec.entry "Hemoglobin" h ++ Spec.entry "Cholesterol" c)%list.
Proof.
  rewrite find_markers_eq.
  destruct (Spec.matched_value (marker_pattern "Hemoglobin") text) as [h|];
    [|discriminate].
  destruct (Spec.matched_value (marker_pattern "Cholesterol") text) as [c|];
    [|discriminate].
  cbn [bind]. intros [= <-]. now exists h, c.
Qed.

Lemma build_plan_values (text : string) (plan : list string) :
  ExercisePlanningTool.build_plan text = Ok plan ->
  exists h c,
    Spec.matched_value (marker_pattern "Hemoglobin") text = Ok h
    /\ Spec.matched_value (marker_pattern "Cholesterol") text = Ok c
    /\ plan = Spec.expected_plan (Spec.chol_above c) (Spec.hemo_below h).
Proof.
  rewrite build_plan_eq.
  destruct (Spec.matched_value (marker_pattern "Cholesterol") text) as [c|];
    [|discriminate].
  destruct (Spec.matched_value (marker_pattern "Hemoglobin") text) as [h|];
    [|discriminate].
  cbn [bind]. intros [= <-]. now exists h, c.
Qed.

End Malformed.

(** C2, the claim as stated, fails: on ["Hemoglobin: 1.2.3"] the pattern
    matches the run [1.2.3], [float] rejects it, and both tools raise
    [ValueError] instead of returning a result string. *)
Lemma malformed_number_raises :
  NutritionAnalysisTool._run "Hemoglobin: 1.2.3"
  = Raise (ValueError "could not convert string to float: '1.2.3'")
  /\ ExercisePlanningTool._run "Hemoglobin: 1.2.3"
     = Raise (ValueError "could not convert string to float: '1.2.3'").
Proof. vm_compute. split; reflexivity. Qed.

(** C2, as amended.  For every text in which the first occurrence of a
    marker of the table is followed by a run of digits and dots that is not
    a number ([float] rejects it), both [NutritionAnalysisTool._run] and
    [ExercisePlanningTool._run] raise the [ValueError] of [float] on a
    rejected run, and return no result string. *)
Theorem malformed_number_is_a_hard_failure
        (text marker : string) (i : nat) (number : string) :
  In marker (Dict.keys NutritionAnalysisTool.reference_ranges) ->
  Spec.first_occurrence marker text i number ->
  PyFloat.of_str number = None ->
  (exists bad,
      PyFloat.of_str bad = None
      /\ NutritionAnalysisTool._run text
         = Raise (ValueError
                    ("could not convert string to float: '" ++ bad ++ "'")))
  /\ (exists bad,
        PyFloat.of_str bad = None
        /\ ExercisePlanningTool._run text
           = Raise (ValueError
                      ("could not convert string to float: '" ++ bad ++ "'"))).
Proof.
  intros Hin Hf Hbad.
  pose proof (matched_value_first _ _ _ _ Hf) as Hm. rewrite Hbad in Hm.
  unfold ExercisePlanningTool._run.
  rewrite nutrition_run_eq, build_plan_eq.
  simpl in Hin. destruct Hin as [<- | [<- | []]].
  - rewrite Hm. split.
    + exists number. now split.
    + destruct (Spec.matched_value
                  (NutritionAnalysisTool.marker_pattern "Cholesterol") text)
        as [c|e] eqn:Ec.
      * exists number. now split.
      * apply matched_value_raise in Ec as (j & bad & _ & Hb & ->).
        exists bad. now split.
  - rewrite Hm. split.
    + destruct (Spec.matched_value
                  (NutritionAnalysisTool.marker_pattern "Hemoglobin") text)
        as [h|e] eqn:Eh.
      * exists number. now split.
      * apply matched_value_raise in Eh as (j & bad & _ & Hb & ->).
        exists bad. now split.
    + exists number. now split.
Qed.

(** ["Hemoglobin: 1.2.3"]: the run [1.2.3] at offset 0. *)
Lemma malformed_number_witness :
  (exists bad,
      PyFloat.of_str bad = None
      /\ NutritionAnalysisTool._run "Hemoglobin: 1.2.3"
         = Raise (ValueError
                    ("could not convert string to float: '" ++ bad ++ "'")))
  /\ (exists bad,
        PyFloat.of_str bad = None
        /\ ExercisePlanningTool._run "Hemoglobin: 1.2.3"
           = Raise (ValueError
                      ("could not convert string to float: '" ++ bad ++ "'"))).
Proof.
  apply (malformed_number_is_a_hard_failure
           "Hemoglobin: 1.2.3" "Hemoglobin" 0 "1.2.3").
  - simpl. auto.
  - split.
    + exists "", "Hemoglobin", ": ", "". repeat split; discriminate.
    + intros j other Hj. lia.
  - reflexivity.
Defined.

(** ** Classification *)

(** C4.  For a marker of the table with range [(low, high)] and a parsed
    value [v]: [v < low] classifies as BELOW and the below-range line is
    emitted; [v > high] classifies as ABOVE and the above-range line is
    emitted; a value neither below [low] nor above [high] classifies as
    WITHIN and the within-range line is emitted; in particular [v = low] and
    [v = high] are WITHIN.  On ["Cholesterol: 200"] the tool returns the
    within-range line and on ["Cholesterol 210"] the above-range line for
    the range (125, 200). *)
Theorem classification_is_inclusive :
  (forall (marker : string) (low high : Num.t) (v : PyFloat.t),
      Dict.get NutritionAnalysisTool.reference_ranges marker = Some (low, high) ->
      (Spec.lt (Num.Flt v) low ->
       Spec.classify v low high = Spec.BELOW
       /\ NutritionAnalysisTool.advice_line marker v low high
          = NutritionAnalysisTool.below_line marker v low high)
      /\ (Spec.lt high (Num.Flt v) ->
          Spec.classify v low high = Spec.ABOVE
          /\ NutritionAnalysisTool.advice_line marker v low high
             = NutritionAnalysisTool.above_line marker v low high)
      /\ (~ Spec.lt (Num.Flt v) low -> ~ Spec.lt high (Num.Flt v) ->
          Spec.classify v low high = Spec.WITHIN
          /\ NutritionAnalysisTool.advice_line marker v low high
             = NutritionAnalysisTool.within_line marker v)
      /\ (Spec.same (Num.Flt v) low \/ Spec.same (Num.Flt v) high ->
          Spec.classify v low high = Spec.WITHIN
          /\ NutritionAnalysisTool.advice_line marker v low high
             = NutritionAnalysisTool.within_line marker v))
  /\ NutritionAnalysisTool._run "Cholesterol: 200"
     = Ok "Your Cholesterol (200.0) is within the normal range."
  /\ NutritionAnalysisTool._run "Cholesterol 210"
     = Ok (NutritionAnalysisTool.above_line
             "Cholesterol" (PyFloat.literal "210") (Num.Int 125) (Num.Int 200))
  /\ Spec.classify (PyFloat.literal "200") (Num.Int 125) (Num.Int 200)
     = Spec.WITHIN
  /\ Spec.classify (PyFloat.literal "210") (Num.Int 125) (Num.Int 200)
     = Spec.ABOVE.
Proof.
  split; [|vm_compute; repeat split].
  intros marker low high v Hget.
  pose proof (table_ranges_ordered _ _ _ Hget) as Hlh.
  unfold Spec.lt, Spec.same, Spec.classify, NutritionAnalysisTool.advice_line,
    Num.gtb, Num.ltb in *.
  cbn [Num.value] in *.
  split; [|split; [|split]].
  - intros H. rewrite H. now split.
  - intros H.
    rewrite (ltb_asym _ _ (ltb_trans _ _ _ Hlh H)), H. now split.
  - intros H1 H2.
    destruct (PyFloat.ltb v (Num.value low)); [now elim H1|].
    destruct (PyFloat.ltb (Num.value high) v); [now elim H2 | now split].
  - intros [H|H].
    + rewrite (eqb_ltb_l _ _ _ H), ltb_irrefl.
      rewrite (eqb_ltb_r _ _ _ H), (ltb_asym _ _ Hlh). now split.
    + rewrite (eqb_ltb_l _ _ _ H), (ltb_asym _ _ Hlh).
      rewrite (eqb_ltb_r _ _ _ H), ltb_irrefl. now split.
Qed.

(** A cholesterol of exactly 200, the high bound of its range. *)
Lemma classification_boundary_witness :
  Spec.classify (PyFloat.literal "200") (Num.Int 125) (Num.Int 200)
  = Spec.WITHIN
  /\ NutritionAnalysisTool.advice_line
       "Cholesterol" (PyFloat.literal "200") (Num.Int 125) (Num.Int 200)
     = NutritionAnalysisTool.within_line "Cholesterol" (PyFloat.literal "200").
Proof.
  apply (proj1 classification_is_inclusive
           "Cholesterol" (Num.Int 125) (Num.Int 200) (PyFloat.literal "200")
           eq_refl).
  right. vm_compute. reflexivity.
Defined.

(** ** The exercise plan *)

Lemma expected_plan_spec (cardio low : bool) :
  let plan := Spec.expected_plan cardio low in
  (In ExercisePlanningTool.cardio_line plan <-> cardio = true)
  /\ (In ExercisePlanningTool.low_intensity_line plan <-> low = true)
  /\ (In ExercisePlanningTool.balanced_line plan <->
      cardio = false /\ low = false).
Proof.
  destruct cardio, low; cbn [Spec.expected_plan In];
    intuition (try discriminate; auto).
Qed.



(** ** What an advice line states *)

Lemma contains_skip (needle a s : string) :
  PyStr.contains needle s = true -> PyStr.contains needle (a ++ s) = true.
Proof.
  intros H. induction a as [|c a IH]; [exact H|].
  change (PyStr.contains needle (String c a ++ s))
    with (prefix needle (String c (a ++ s)) || PyStr.contains needle (a ++ s)).
  rewrite IH. apply orb_true_r.
Qed.

Lemma contains_head (needle b : string) :
  PyStr.contains needle (needle ++ b) = true.
Proof. apply contains_prefix, prefix_append. Qed.

Lemma contains_head3 (a b c r : string) :
  PyStr.contains (a ++ b ++ c) (a ++ b ++ c ++ r) = true.
Proof.
  rewrite <- (append_assoc b c r), <- (append_assoc a (b ++ c) r).
  apply contains_head.
Qed.

(** C7, the claim as stated, fails: the line for a value within its range
    states the marker and the value but not the bounds. *)
Lemma within_line_states_no_bounds :
  NutritionAnalysisTool._run "Cholesterol: 150"
  = Ok "Your Cholesterol (150.0) is within the normal range."
  /\ PyStr.contains "125" "Your Cholesterol (150.0) is within the normal range."
     = false
  /\ PyStr.contains "200" "Your Cholesterol (150.0) is within the normal range."
     = false.
Proof. vm_compute. repeat split. Qed.

(** C7, as amended.  Every advice line states the marker name and the value
    as Python prints it.  The lines for a value below or above its range
    also state the bound pair as [low-high]; the line for a value within its
    range is "Your <marker> (<value>) is within the normal range." and
    states no bounds. *)
Theorem advice_line_states_marker_and_value
        (marker : string) (v : PyFloat.t) (low high : Num.t) :
  let line := NutritionAnalysisTool.advice_line marker v low high in
  PyStr.contains marker line = true
  /\ PyStr.contains (PyFloat.repr v) line = true
  /\ (Spec.lt (Num.Flt v) low \/ Spec.lt high (Num.Flt v) ->
      PyStr.contains (Num.str low ++ "-" ++ Num.str high) line = true)
  /\ (~ Spec.lt (Num.Flt v) low -> ~ Spec.lt high (Num.Flt v) ->
      line = "Your " ++ marker ++ " (" ++ PyFloat.repr v
               ++ ") is within the normal range.").
Proof.
  unfold NutritionAnalysisTool.advice_line, Spec.lt.
  destruct (Num.ltb (Num.Flt v) low) eqn:El;
    [|destruct (Num.gtb (Num.Flt v) high) eqn:Eh;
      change (Num.gtb (Num.Flt v) high) with (Num.ltb high (Num.Flt v)) in Eh;
      rewrite Eh].
  - unfold NutritionAnalysisTool.below_line. repeat split.
    + apply contains_skip, contains_head.
    + do 3 apply contains_skip. apply contains_head.
    + intros _. do 5 apply contains_skip. apply contains_head3.
    + intros H. now elim H.
  - unfold NutritionAnalysisTool.above_line. repeat split.
    + apply contains_skip, contains_head.
    + do 3 apply contains_skip. apply contains_head.
    + intros _. do 5 apply contains_skip. apply contains_head3.
    + intros _ H. now elim H.
  - unfold NutritionAnalysisTool.within_line. repeat split.
    + apply contains_skip, contains_head.
    + do 3 apply contains_skip. apply contains_head.
    + intros [H|H]; discriminate.
Qed.

(** A hemoglobin of 12.0 against (13.5, 17.5): the bounds are stated. *)
Lemma advice_line_witness :
  PyStr.contains "13.5-17.5"
    (NutritionAnalysisTool.advice_line
       "Hemoglobin" (PyFloat.literal "12.0")
       (Num.Flt (PyFloat.literal "13.5")) (Num.Flt (PyFloat.literal "17.5")))
  = true.
Proof.
  apply (proj1 (proj2 (proj2 (advice_line_states_marker_and_value
                                "Hemoglobin" (PyFloat.literal "12.0")
                                (Num.Flt (PyFloat.literal "13.5"))
                                (Num.Flt (PyFloat.literal "17.5")))))).
  left. vm_compute. reflexivity.
Defined.

(** ** What the finder keeps *)

Section Findings.

Import NutritionAnalysisTool.





End Findings.



(** ** The nutrition advice *)



(** ** The exercise triggers and the finder's classifications *)

Section Agreement.

Import NutritionAnalysisTool.

Lemma readings_entries (h c : option PyFloat.t) :
  Spec.readings reference_ranges
    (Spec.entry "Hemoglobin" h ++ Spec.entry "Cholesterol" c)%list
  = (match h with
     | Some v =>
         [Spec.mkReading "Hemoglobin" v
            (Spec.classify v (Num.Flt (PyFloat.literal "13.5"))
                             (Num.Flt (PyFloat.literal "17.5")))]
     | None => []
     end
     ++ match c with
        | Some v =>
            [Spec.mkReading "Cholesterol" v
               (Spec.classify v (Num.Int 125) (Num.Int 200))]
        | None => []
        end)%list.
Proof. destruct h, c; reflexivity. Qed.

Lemma chol_reading_iff (h c : option PyFloat.t) (v : PyFloat.t)
      (cl : Spec.Classification) :
  In (Spec.mkReading "Cholesterol" v cl)
     (Spec.readings reference_ranges
        (Spec.entry "Hemoglobin" h ++ Spec.entry "Cholesterol" c)%list)
  <-> c = Some v /\ cl = Spec.classify v (Num.Int 125) (Num.Int 200).
Proof.
  rewrite readings_entries, in_app_iff. split.
  - intros [H|H].
    + destruct h; simpl in H; [|contradiction].
      destruct H as [H|[]]. discriminate H.
    + destruct c; simpl in H; [|contradiction].
      destruct H as [H|[]]. injection H as <- <-. now split.
  - intros [-> ->]. right. now left.
Qed.

Lemma hemo_reading_iff (h c : option PyFloat.t) (v : PyFloat.t)
      (cl : Spec.Classification) :
  In (Spec.mkReading "Hemoglobin" v cl)
     (Spec.readings reference_ranges
        (Spec.entry "Hemoglobin" h ++ Spec.entry "Cholesterol" c)%list)
  <-> h = Some v
      /\ cl = Spec.classify v (Num.Flt (PyFloat.literal "13.5"))
                              (Num.Flt (PyFloat.literal "17.5")).
Proof.
  rewrite readings_entries, in_app_iff. split.
  - intros [H|H].
    + destruct h; simpl in H; [|contradiction].
      destruct H as [H|[]]. injection H as <- <-. now split.
    + destruct c; simpl in H; [|contradiction].
      destruct H as [H|[]]. discriminate H.
  - intros [-> ->]. left. now left.
Qed.

Lemma classify_below_iff (v : PyFloat.t) (low high : Num.t) :
  Spec.classify v low high = Spec.BELOW <-> Num.ltb (Num.Flt v) low = true.
Proof.
  unfold Spec.classify. destruct (Num.ltb (Num.Flt v) low).
  - split; reflexivity.
  - destruct (Num.gtb (Num.Flt v) high); split; discriminate.
Qed.

Lemma classify_above_iff (marker : string) (v : PyFloat.t) (low high : Num.t) :
  Dict.get reference_ranges marker = Some (low, high) ->
  Spec.classify v low high = Spec.ABOVE <-> Num.gtb (Num.Flt v) high = true.
Proof.
  intros Hget. pose proof (table_ranges_ordered _ _ _ Hget) as Hlh.
  unfold Spec.classify. split.
  - destruct (Num.ltb (Num.Flt v) low); [discriminate|].
    destruct (Num.gtb (Num.Flt v) high); [reflexivity | discriminate].
  - intros H. rewrite H.
    unfold Num.gtb, Num.ltb in *.
    now rewrite (ltb_asym _ _ (ltb_trans _ _ _ Hlh H)).
Qed.

End Agreement.

(** C9.  On every text on which neither tool raises, the plan holds the
    cardio line iff the finder's readings hold a Cholesterol reading
    classified ABOVE, whose value is then above 200, and the low-intensity
    line iff they hold a Hemoglobin reading classified BELOW, whose value is
    then below 13.5. *)
Theorem exercise_triggers_agree_with_finder
        (text out_exercise out_nutrition : string) :
  ExercisePlanningTool._run text = Ok out_exercise ->
  NutritionAnalysisTool._run text = Ok out_nutrition ->
  exists plan fs,
    ExercisePlanningTool.build_plan text = Ok plan
    /\ out_exercise = PyStr.join (nl ++ nl) plan
    /\ NutritionAnalysisTool.find_markers text = Ok fs
    /\ (In ExercisePlanningTool.cardio_line plan <->
        exists v,
          In (Spec.mkReading "Cholesterol" v Spec.ABOVE)
             (Spec.readings NutritionAnalysisTool.reference_ranges fs))
    /\ (In ExercisePlanningTool.low_intensity_line plan <->
        exists v,
          In (Spec.mkReading "Hemoglobin" v Spec.BELOW)
             (Spec.readings NutritionAnalysisTool.reference_ranges fs))
    /\ (forall v,
           In (Spec.mkReading "Cholesterol" v Spec.ABOVE)
              (Spec.readings NutritionAnalysisTool.reference_ranges fs) ->
           Spec.lt (Num.Int 200) (Num.Flt v))
    /\ (forall v,
           In (Spec.mkReading "Hemoglobin" v Spec.BELOW)
              (Spec.readings NutritionAnalysisTool.reference_ranges fs) ->
           Spec.lt (Num.Flt v) (Num.Flt (PyFloat.literal "13.5"))).
Proof.
  intros He Hn.
  unfold ExercisePlanningTool._run in He.
  destruct (ExercisePlanningTool.build_plan text) as [plan|] eqn:Hp;
    [|discriminate].
  cbn [bind] in He. injection He as <-.
  unfold NutritionAnalysisTool._run in Hn.
  destruct (NutritionAnalysisTool.find_markers text) as [fs|] eqn:Hfs;
    [|discriminate].
  exists plan, fs. split; [reflexivity|]. split; [reflexivity|].
  split; [reflexivity|].
  apply build_plan_values in Hp as (h & c & Hh & Hc & ->).
  apply find_markers_values in Hfs as (h' & c' & Hh' & Hc' & ->).
  assert (h' = h) by congruence. assert (c' = c) by congruence. subst h' c'.
  destruct (expected_plan_spec (Spec.chol_above c) (Spec.hemo_below h))
    as (Hcardio & Hlow & _).
  assert (Habove : forall v,
             Spec.classify v (Num.Int 125) (Num.Int 200) = Spec.ABOVE
             <-> Num.gtb (Num.Flt v) (Num.Int 200) = true)
    by (intros v; now apply (classify_above_iff "Cholesterol")).
  split; [|split; [|split]].
  - rewrite Hcardio. split.
    + intros H. destruct c as [v|]; [|discriminate]. exists v.
      apply chol_reading_iff. split; [reflexivity|].
      symmetry. now apply Habove.
    + intros (v & H). apply chol_reading_iff in H as [-> H].
      symmetry in H. now apply Habove in H.
  - rewrite Hlow. split.
    + intros H. destruct h as [v|]; [|discriminate]. exists v.
      apply hemo_reading_iff. split; [reflexivity|].
      symmetry. now apply classify_below_iff.
    + intros (v & H). apply hemo_reading_iff in H as [-> H].
      symmetry in H. now apply classify_below_iff in H.
  - intros v H. apply chol_reading_iff in H as [_ H].
    symmetry in H. now apply Habove in H.
  - intros v H. apply hemo_reading_iff in H as [_ H].
    symmetry in H. now apply classify_below_iff in H.
Qed.

(** ["Cholesterol: 250, Hemoglobin: 10.0"]: neither tool raises. *)
Lemma exercise_agreement_witness :
  exists plan fs,
    ExercisePlanningTool.build_plan "Cholesterol: 250, Hemoglobin: 10.0" = Ok plan
    /\ NutritionAnalysisTool.find_markers "Cholesterol: 250, Hemoglobin: 10.0"
       = Ok fs
    /\ (In ExercisePlanningTool.cardio_line plan <->
        exists v,
          In (Spec.mkReading "Cholesterol" v Spec.ABOVE)
             (Spec.readings NutritionAnalysisTool.reference_ranges fs)).
Proof.
  destruct (exercise_triggers_agree_with_finder
              "Cholesterol: 250, Hemoglobin: 10.0"
              (ExercisePlanningTool.cardio_line ++ nl ++ nl
                 ++ ExercisePlanningTool.low_intensity_line)
              (NutritionAnalysisTool.below_line
                 "Hemoglobin" (PyFloat.literal "10.0")
                 (Num.Flt (PyFloat.literal "13.5"))
                 (Num.Flt (PyFloat.literal "17.5"))
                 ++ nl ++ nl
                 ++ NutritionAnalysisTool.above_line
                      "Cholesterol" (PyFloat.literal "250")
                      (Num.Int 125) (Num.Int 200)))
    as (plan & fs & Hp & _ & Hfs & Hc & _).
  - vm_compute. reflexivity.
  - vm_compute. reflexivity.
  - exists plan, fs. split; [exact Hp|]. split; [exact Hfs | exact Hc].
Defined.

(** ** No word boundary before the name *)

Section Boundary.

Lemma all_chars_append (p : ascii -> bool) (a b : string) :
  PyStr.all_chars p a = true -> PyStr.all_chars p b = true ->
  PyStr.all_chars p (a ++ b) = true.
Proof.
  intros Ha Hb. induction a as [|c a IH]; simpl in *; [exact Hb|].
  apply andb_true_iff in Ha as [Hc Ha]. now rewrite Hc, IH.
Qed.



End Boundary.



(** * More of [tools.py] *)

(** ** The extractor's successful path and its trace *)

(** X1.  A [.pdf] (in any case) that one of the three checks finds, even
    the second or third, is loaded once and its page texts are returned in
    page order, joined by single newlines; a document of zero pages gives
    the empty string.  The trace is the failed checks with their delays, the
    successful check and the load. *)
Theorem extract_returns_joined_pages
        (env : ReadBloodReportTool.Env) (path : string)
        (w : ReadBloodReportTool.World) (k : nat) (pages : list string) :
  let p := ReadBloodReportTool.abspath env path in
  k < 3 ->
  ReadBloodReportTool.isfile env (ReadBloodReportTool.now w + k) p = true ->
  (forall j, j < k ->
     ReadBloodReportTool.isfile env (ReadBloodReportTool.now w + j) p = false) ->
  PyStr.endswith (PyStr.lower p) ".pdf" = true ->
  ReadBloodReportTool.pdf_load env (ReadBloodReportTool.now w + k) p
  = ReadBloodReportTool.Pages pages ->
  ReadBloodReportTool._run env path w
  = (Ok (PyStr.join nl pages),
     ReadBloodReportTool.mkWorld
       (ReadBloodReportTool.now w + k)
       (ReadBloodReportTool.trace w ++ Spec.failed_checks p k
          ++ [ReadBloodReportTool.EvIsFile p true;
              ReadBloodReportTool.EvLoad p])%list)
  /\ (pages = [] -> fst (ReadBloodReportTool._run env path w) = Ok "").
Proof.
  intros p Hk H1 H2 Hext Hload.
  assert (E : ReadBloodReportTool._run env path w
              = (Ok (PyStr.join nl pages),
                 ReadBloodReportTool.mkWorld
                   (ReadBloodReportTool.now w + k)
                   (ReadBloodReportTool.trace w ++ Spec.failed_checks p k
                      ++ [ReadBloodReportTool.EvIsFile p true;
                          ReadBloodReportTool.EvLoad p])%list)).
  { rewrite (run_found env path w k Hk H1 H2). fold p. rewrite Hext, Hload.
    unfold ReadBloodReportTool.emit. cbn [ReadBloodReportTool.now
                                            ReadBloodReportTool.trace].
    now rewrite <- !app_assoc. }
  split; [exact E|]. intros ->. now rewrite E.
Qed.

(** A two-page report that is there at the first check. *)
Lemma extract_returns_joined_pages_witness :
  ReadBloodReportTool.call Spec.env_present "cbc.PDF"
  = (Ok ("page 1" ++ nl ++ "page 2"),
     ReadBloodReportTool.mkWorld 0
       [ReadBloodReportTool.EvIsFile "/srv/data/cbc.PDF" true;
        ReadBloodReportTool.EvLoad "/srv/data/cbc.PDF"]).
Proof.
  apply (proj1 (extract_returns_joined_pages
                  Spec.env_present "cbc.PDF"
                  (ReadBloodReportTool.mkWorld 0 []) 0 ["page 1"; "page 2"]
                  ltac:(lia) eq_refl ltac:(intros j Hj; lia) eq_refl eq_refl)).
Defined.

(** X2.  When the loader fails on a found [.pdf], the call raises
    [ValueError] with "Error reading PDF file: " before the loader's own
    message; the load is tried once and never repeated. *)
Theorem extract_wraps_loader_failure
        (env : ReadBloodReportTool.Env) (path : string)
        (w : ReadBloodReportTool.World) (k : nat) (msg : string) :
  let p := ReadBloodReportTool.abspath env path in
  k < 3 ->
  ReadBloodReportTool.isfile env (ReadBloodReportTool.now w + k) p = true ->
  (forall j, j < k ->
     ReadBloodReportTool.isfile env (ReadBloodReportTool.now w + j) p = false) ->
  PyStr.endswith (PyStr.lower p) ".pdf" = true ->
  ReadBloodReportTool.pdf_load env (ReadBloodReportTool.now w + k) p
  = ReadBloodReportTool.LoadError msg ->
  ReadBloodReportTool._run env path w
  = (Raise (ValueError ("Error reading PDF file: " ++ msg)),
     ReadBloodReportTool.mkWorld
       (ReadBloodReportTool.now w + k)
       (ReadBloodReportTool.trace w ++ Spec.failed_checks p k
          ++ [ReadBloodReportTool.EvIsFile p true;
              ReadBloodReportTool.EvLoad p])%list).
Proof.
  intros p Hk H1 H2 Hext Hload.
  rewrite (run_found env path w k Hk H1 H2). fold p. rewrite Hext, Hload.
  unfold ReadBloodReportTool.emit.
  cbn [ReadBloodReportTool.now ReadBloodReportTool.trace].
  now rewrite <- !app_assoc.
Qed.

(** A file that appears at the second check and does not parse. *)
Lemma extract_wraps_loader_failure_witness :
  ReadBloodReportTool.call
    (ReadBloodReportTool.mkEnv
       (fun p => "/srv/data/" ++ p) (fun t _ => Nat.leb 1 t)
       (fun _ _ => ReadBloodReportTool.LoadError "EOF marker not found"))
    "broken.pdf"
  = (Raise (ValueError "Error reading PDF file: EOF marker not found"),
     ReadBloodReportTool.mkWorld 1
       [ReadBloodReportTool.EvIsFile "/srv/data/broken.pdf" false;
        ReadBloodReportTool.EvSleep 1;
        ReadBloodReportTool.EvIsFile "/srv/data/broken.pdf" true;
        ReadBloodReportTool.EvLoad "/srv/data/broken.pdf"]).
Proof.
  apply (extract_wraps_loader_failure
           (ReadBloodReportTool.mkEnv
              (fun p => "/srv/data/" ++ p) (fun t _ => Nat.leb 1 t)
              (fun _ _ => ReadBloodReportTool.LoadError "EOF marker not found"))
           "broken.pdf" (ReadBloodReportTool.mkWorld 0 []) 1
           "EOF marker not found").
  - lia.
  - reflexivity.
  - intros j Hj. assert (j = 0) as -> by lia. reflexivity.
  - reflexivity.
  - reflexivity.
Defined.




(** ** Which names pass the extension test *)

Section Suffix.

Lemma rev_acc_append (s acc : string) :
  PyStr.rev_acc s acc = PyStr.rev_acc s "" ++ acc.
Proof.
  revert acc. induction s as [|c s IH]; intros acc; [reflexivity|].
  cbn [PyStr.rev_acc]. rewrite (IH (String c acc)), (IH (String c "")).
  now rewrite append_assoc.
Qed.

Lemma rev_append (a b : string) :
  PyStr.rev (a ++ b) = PyStr.rev b ++ PyStr.rev a.
Proof.
  unfold PyStr.rev. induction a as [|c a IH].
  - cbn. induction (PyStr.rev_acc b "") as [|x r IHr]; [reflexivity|].
    cbn. now rewrite <- IHr.
  - cbn [append PyStr.rev_acc].
    rewrite (rev_acc_append (a ++ b)), (rev_acc_append a), IH.
    now rewrite append_assoc.
Qed.

Lemma rev_involutive (s : string) : PyStr.rev (PyStr.rev s) = s.
Proof.
  induction s as [|c s IH]; [reflexivity|].
  change (String c s) with (String c "" ++ s) at 1.
  rewrite rev_append, rev_append, IH. reflexivity.
Qed.






End Suffix.


(** ** When the two advice tools raise *)

Section Raising.

Import NutritionAnalysisTool.

Lemma nutrition_outcome (text : string) (h c : option PyFloat.t) :
  Spec.matched_value (marker_pattern "Hemoglobin") text = Ok h ->
  Spec.matched_value (marker_pattern "Cholesterol") text = Ok c ->
  exists out, _run text = Ok out.
Proof.
  intros Hh Hc. destruct (tools_return text h c Hh Hc) as (_ & Hrun & _).
  rewrite Hrun, (compose_eq _ (entries_in_table h c)). eauto.
Qed.

Lemma exercise_run_eq (text : string) :
  ExercisePlanningTool._run text
  = (c <- Spec.matched_value (marker_pattern "Cholesterol") text ;;
     h <- Spec.matched_value (marker_pattern "Hemoglobin") text ;;
     Ok (PyStr.join (nl ++ nl)
           (Spec.expected_plan (Spec.chol_above c) (Spec.hemo_below h))))%py.
Proof.
  unfold ExercisePlanningTool._run. rewrite build_plan_eq.
  destruct (Spec.matched_value (marker_pattern "Cholesterol") text);
    [|reflexivity].
  destruct (Spec.matched_value (marker_pattern "Hemoglobin") text);
    reflexivity.
Qed.

Lemma float_error_of_step (marker text : string) (e : exn) :
  Spec.matched_value (marker_pattern marker) text = Raise e ->
  exists bad, e = Extra.float_error bad /\ PyFloat.of_str bad = None.
Proof.
  intros H. apply matched_value_raise in H as (i & bad & _ & Hb & ->).
  now exists bad.
Qed.

End Raising.

(** X5.  The two advice tools raise on exactly the same texts: those in
    which the first occurrence of a marker is followed by a run that [float]
    rejects.  What they raise is always that [ValueError]; the lookup of the
    range in the second loop and [group(1)] never fail. *)
Theorem advice_tools_raise_together (text : string) :
  ((exists e, NutritionAnalysisTool._run text = Raise e)
   <-> (exists e, ExercisePlanningTool._run text = Raise e))
  /\ ((exists out, NutritionAnalysisTool._run text = Ok out)
      <-> Spec.numbers_parse text)
  /\ (forall e,
         NutritionAnalysisTool._run text = Raise e
         \/ ExercisePlanningTool._run text = Raise e ->
         exists bad, e = Extra.float_error bad /\ PyFloat.of_str bad = None).
Proof.
  rewrite exercise_run_eq.
  destruct (Spec.matched_value
              (NutritionAnalysisTool.marker_pattern "Hemoglobin") text)
    as [h|eh] eqn:Hh;
    destruct (Spec.matched_value
                (NutritionAnalysisTool.marker_pattern "Cholesterol") text)
      as [c|ec] eqn:Hc.
  - destruct (nutrition_outcome text h c Hh Hc) as [out Hout]. rewrite Hout.
    cbn [bind]. split; [|split].
    + split; intros [e H]; discriminate.
    + split; [|eauto]. intros _ marker Hin. simpl in Hin.
      destruct Hin as [<- | [<- | []]]; eauto.
    + intros e [H|H]; discriminate.
  - rewrite nutrition_run_eq, Hh, Hc. cbn [bind]. split; [|split].
    + split; eauto.
    + split; [intros [out H]; discriminate|].
      intros Hp. destruct (Hp "Cholesterol") as [r Hr]; [simpl; auto|].
      congruence.
    + intros e [H|H]; injection H as <-;
        exact (float_error_of_step _ _ _ Hc).
  - rewrite nutrition_run_eq, Hh, Hc. cbn [bind]. split; [|split].
    + split; eauto.
    + split; [intros [out H]; discriminate|].
      intros Hp. destruct (Hp "Hemoglobin") as [r Hr]; [simpl; auto|].
      congruence.
    + intros e [H|H]; injection H as <-;
        exact (float_error_of_step _ _ _ Hh).
  - rewrite nutrition_run_eq, Hh, Hc. cbn [bind]. split; [|split].
    + split; eauto.
    + split; [intros [out H]; discriminate|].
      intros Hp. destruct (Hp "Hemoglobin") as [r Hr]; [simpl; auto|].
      congruence.
    + intros e [H|H]; injection H as <-;
        [exact (float_error_of_step _ _ _ Hh)
        | exact (float_error_of_step _ _ _ Hc)].
Qed.

(** X6.  When the runs after both markers are rejected, each tool reports
    the marker it looks at first: the nutrition tool the Hemoglobin run
    (table order), the exercise tool the Cholesterol run (its first check). *)
Theorem raised_error_names_the_first_checked_marker
        (text : string) (i j : nat) (bad_hemo bad_chol : string) :
  Spec.first_occurrence "Hemoglobin" text i bad_hemo ->
  PyFloat.of_str bad_hemo = None ->
  Spec.first_occurrence "Cholesterol" text j bad_chol ->
  PyFloat.of_str bad_chol = None ->
  NutritionAnalysisTool._run text = Raise (Extra.float_error bad_hemo)
  /\ ExercisePlanningTool._run text = Raise (Extra.float_error bad_chol).
Proof.
  intros Hh Bh Hc Bc.
  pose proof (matched_value_first _ _ _ _ Hh) as Mh. rewrite Bh in Mh.
  pose proof (matched_value_first _ _ _ _ Hc) as Mc. rewrite Bc in Mc.
  rewrite nutrition_run_eq, exercise_run_eq, Mh, Mc. split; reflexivity.
Qed.

(** Both runs malformed, Cholesterol first in the text. *)
Lemma raised_error_witness :
  NutritionAnalysisTool._run "Cholesterol 3..4, Hemoglobin 1..2"
  = Raise (Extra.float_error "1..2")
  /\ ExercisePlanningTool._run "Cholesterol 3..4, Hemoglobin 1..2"
     = Raise (Extra.float_error "3..4").
Proof.
  apply (raised_error_names_the_first_checked_marker
           "Cholesterol 3..4, Hemoglobin 1..2" 18 0 "1..2" "3..4").
  - split.
    + exists "Cholesterol 3..4, ", "Hemoglobin", " ", "".
      repeat split; discriminate.
    + intros k other Hk Ho. apply occurs_at_scan in Ho as [_ Ho].
      do 18 (destruct k as [|k]; [vm_compute in Ho; discriminate|]). lia.
  - reflexivity.
  - split.
    + exists "", "Cholesterol", " ", ", Hemoglobin 1..2".
      repeat split; discriminate.
    + intros k other Hk. lia.
  - reflexivity.
Defined.

(** ** A period after the number *)

Section Period.

Import NutritionAnalysisTool.

Lemma append_empty_r (a : string) : a ++ "" = a.
Proof. induction a as [|x a IH]; simpl; [reflexivity | now rewrite IH]. Qed.

Lemma span_whole (p : ascii -> bool) (a : string) :
  PyStr.all_chars p a = true -> PyStr.span p a = (a, "").
Proof.
  intros H. rewrite <- (append_empty_r a) at 1. now apply span_unique.
Qed.

Lemma all_chars_stop (p : ascii -> bool) (a b : string) (c : ascii) :
  p c = false -> PyStr.all_chars p (a ++ String c b) = false.
Proof.
  intros Hc. induction a as [|x a IH]; simpl; [now rewrite Hc|].
  rewrite IH. apply andb_false_r.
Qed.

Lemma of_str_digits (ip : string) :
  ip <> "" -> PyStr.all_chars Re.is_digit ip = true ->
  PyFloat.of_str ip = Some (PyFloat.round64 (PyFloat.digits_val 0 ip) 1).
Proof.
  intros Hne Hd. unfold PyFloat.of_str. rewrite (span_whole _ _ Hd).
  destruct ip; [congruence | reflexivity].
Qed.

Lemma of_str_digits_period (ip : string) :
  ip <> "" -> PyStr.all_chars Re.is_digit ip = true ->
  PyFloat.of_str (ip ++ ".") = PyFloat.of_str ip.
Proof.
  intros Hne Hd. rewrite (of_str_digits ip Hne Hd). unfold PyFloat.of_str.
  rewrite (span_unique Re.is_digit ip "." Hd eq_refl).
  destruct ip as [|c ip]; [congruence|].
  cbn [Ascii.eqb PyStr.all_chars PyStr.is_empty andb negb String.length].
  rewrite append_empty_r. reflexivity.
Qed.

Lemma of_str_two_periods (ip fp : string) :
  PyStr.all_chars Re.is_digit ip = true ->
  PyFloat.of_str (ip ++ "." ++ fp ++ ".") = None.
Proof.
  intros Hd. unfold PyFloat.of_str.
  rewrite (span_unique Re.is_digit ip ("." ++ fp ++ ".") Hd eq_refl).
  cbn [append]. rewrite (all_chars_stop Re.is_digit fp "" "." eq_refl).
  now rewrite andb_false_r.
Qed.

Lemma step_raise_propagates (marker text : string) (e : exn) :
  In marker (Dict.keys reference_ranges) ->
  Spec.matched_value (marker_pattern marker) text = Raise e ->
  (exists e', _run text = Raise e')
  /\ (exists e', ExercisePlanningTool._run text = Raise e').
Proof.
  intros Hin H. rewrite nutrition_run_eq, exercise_run_eq.
  simpl in Hin. destruct Hin as [<- | [<- | []]]; rewrite H; cbn [bind].
  - split; [eauto|].
    destruct (Spec.matched_value (marker_pattern "Cholesterol") text);
      cbn [bind]; eauto.
  - split; [|eauto].
    destruct (Spec.matched_value (marker_pattern "Hemoglobin") text);
      cbn [bind]; eauto.
Qed.

End Period.

(** X7.  A period right after the number is read as part of it.  After
    whole digits it is harmless: the value is that of the digits.  After a
    number that already has its decimal point ([12.5.] at the end of a
    sentence) [float] rejects the run and both tools raise. *)
Theorem sentence_period_joins_the_number
        (marker text : string) (i : nat) (ip fp : string) :
  In marker (Dict.keys NutritionAnalysisTool.reference_ranges) ->
  ip <> "" ->
  PyStr.all_chars Re.is_digit ip = true ->
  (Spec.first_occurrence marker text i (ip ++ ".") ->
   Spec.matched_value (NutritionAnalysisTool.marker_pattern marker) text
   = Ok (PyFloat.of_str ip)
   /\ PyFloat.of_str ip <> None)
  /\ (Spec.first_occurrence marker text i (ip ++ "." ++ fp ++ ".") ->
      Spec.matched_value (NutritionAnalysisTool.marker_pattern marker) text
      = Raise (Extra.float_error (ip ++ "." ++ fp ++ "."))
      /\ (exists e, NutritionAnalysisTool._run text = Raise e)
      /\ (exists e, ExercisePlanningTool._run text = Raise e)).
Proof.
  intros Hin Hne Hd. split.
  - intros Hf. rewrite (matched_value_first _ _ _ _ Hf).
    rewrite (of_str_digits_period ip Hne Hd), (of_str_digits ip Hne Hd).
    split; [reflexivity | discriminate].
  - intros Hf.
    pose proof (matched_value_first _ _ _ _ Hf) as Hm.
    rewrite (of_str_two_periods ip fp Hd) in Hm.
    split; [exact Hm|]. exact (step_raise_propagates _ _ _ Hin Hm).
Qed.

(** ["Hemoglobin 12.5."]: the sentence's period ends up in the run. *)
Lemma sentence_period_witness :
  (exists e, NutritionAnalysisTool._run "Hemoglobin 12.5." = Raise e)
  /\ (exists e, ExercisePlanningTool._run "Hemoglobin 12.5." = Raise e).
Proof.
  apply (proj2 (sentence_period_joins_the_number
                  "Hemoglobin" "Hemoglobin 12.5." 0 "12" "5"
                  (or_introl eq_refl) ltac:(discriminate) eq_refl)).
  split.
  - exists "", "Hemoglobin", " ", "". repeat split; discriminate.
  - intros k other Hk. lia.
Defined.

(** ** Values are never negative *)

Section Sign.

Lemma digits_val_nonneg (s : string) (acc : Z) :
  (0 <= acc)%Z -> PyStr.all_chars Re.is_digit s = true ->
  (0 <= PyFloat.digits_val acc s)%Z.
Proof.
  revert acc. induction s as [|c s IH]; intros acc Hacc Hd; [exact Hacc|].
  simpl in Hd. apply andb_true_iff in Hd as [Hc Hs].
  cbn [PyFloat.digits_val]. apply IH; [|exact Hs].
  unfold Re.is_digit in Hc. apply andb_true_iff in Hc as [Hlo _].
  apply N.leb_le in Hlo. unfold PyFloat.digit_val. lia.
Qed.

Lemma round_half_even_nonneg (a b : Z) :
  (0 <= a)%Z -> (0 < b)%Z -> (0 <= PyFloat.round_half_even a b)%Z.
Proof.
  intros Ha Hb. unfold PyFloat.round_half_even.
  pose proof (Z.div_pos a b Ha Hb).
  destruct (2 * (a mod b) ?= b)%Z; [destruct (Z.even (a / b))| |]; lia.
Qed.

Lemma pow2_nonneg (e : Z) : (0 <= PyFloat.pow2 e)%Q.
Proof.
  unfold PyFloat.pow2. destruct (0 <=? e)%Z.
  - unfold Qle. simpl. pose proof (Z.pow_nonneg 2 e). lia.
  - unfold Qle. simpl. lia.
Qed.

Lemma round64_nonneg (n d : Z) :
  (0 <= n)%Z -> (0 < d)%Z ->
  PyFloat.ltb (PyFloat.round64 n d) (PyFloat.Fin 0) = false.
Proof.
  intros Hn Hd. unfold PyFloat.round64.
  destruct (n =? 0)%Z; [reflexivity|].
  set (e := Z.max (PyFloat.ilog2 n d - 52) (-1074)).
  set (m := if (0 <=? e)%Z then PyFloat.round_half_even n (d * 2 ^ e)
            else PyFloat.round_half_even (n * 2 ^ (- e)) d).
  assert (Hm : (0 <= m)%Z).
  { subst m. destruct (0 <=? e)%Z eqn:He.
    - apply round_half_even_nonneg; [exact Hn|].
      apply Z.leb_le in He. pose proof (Z.pow_pos_nonneg 2 e). nia.
    - apply round_half_even_nonneg; [|exact Hd].
      pose proof (Z.pow_nonneg 2 (- e)). nia. }
  destruct ((971 <? e) || (e =? 971) && (m =? 2 ^ 53))%Z; [reflexivity|].
  cbn [PyFloat.ltb]. apply negb_false_iff, Qle_bool_iff.
  rewrite Qred_correct. apply Qmult_le_0_compat; [|apply pow2_nonneg].
  unfold Qle. simpl. lia.
Qed.

Lemma of_str_nonneg (s : string) (v : PyFloat.t) :
  PyFloat.of_str s = Some v -> PyFloat.ltb v (PyFloat.Fin 0) = false.
Proof.
  unfold PyFloat.of_str.
  pose proof (span_all Re.is_digit s) as Hip.
  destruct (PyStr.span Re.is_digit s) as [ip rest]. cbn [fst] in Hip.
  destruct rest as [|c fp].
  - destruct (PyStr.is_empty ip); [discriminate|]. intros [= <-].
    apply round64_nonneg; [|lia]. now apply digits_val_nonneg.
  - destruct (Ascii.eqb c "." && PyStr.all_chars Re.is_digit fp
              && negb (PyStr.is_empty ip && PyStr.is_empty fp)) eqn:E;
      [|discriminate].
    intros [= <-].
    apply andb_true_iff in E as [E _]. apply andb_true_iff in E as [_ Hfp].
    apply round64_nonneg.
    + apply digits_val_nonneg; [lia | now apply all_chars_append].
    + apply Z.pow_pos_nonneg; lia.
Qed.

Lemma get_entries_some (h c : option PyFloat.t) (marker : string)
      (v : PyFloat.t) :
  Dict.get (Spec.entry "Hemoglobin" h ++ Spec.entry "Cholesterol" c)%list marker
  = Some v ->
  (marker = "Hemoglobin" /\ h = Some v)
  \/ (marker = "Cholesterol" /\ c = Some v).
Proof.
  destruct h as [vh|], c as [vc|]; cbn [Spec.entry app Dict.get];
    repeat match goal with
           | |- context [String.eqb ?k marker] =>
               destruct (String.eqb_spec k marker) as [<-|]
           end;
    intros H; try discriminate; injection H as <-; auto.
Qed.

End Sign.

(** X8.  The pattern reads no sign, so a value the finder keeps is never
    negative: for every text, every entry of the findings is at least 0
    (possibly [inf]). *)
Theorem findings_are_never_negative
        (text marker : string) (fs : Dict.t PyFloat.t) (v : PyFloat.t) :
  NutritionAnalysisTool.find_markers text = Ok fs ->
  Dict.get fs marker = Some v ->
  PyFloat.ltb v (PyFloat.Fin 0) = false
  /\ In marker (Dict.keys NutritionAnalysisTool.reference_ranges).
Proof.
  intros Hfs Hget.
  apply find_markers_values in Hfs as (h & c & Hh & Hc & ->).
  assert (Hstep : forall mk r,
             Spec.matched_value (NutritionAnalysisTool.marker_pattern mk) text
             = Ok (Some r) ->
             PyFloat.ltb r (PyFloat.Fin 0) = false).
  { intros mk r Hr.
    destruct (matched_value_cases mk text)
      as [[_ E] | (i & number & _ & _ & E)]; rewrite E in Hr; [discriminate|].
    destruct (PyFloat.of_str number) as [x|] eqn:Ex; [|discriminate].
    injection Hr as <-. exact (of_str_nonneg _ _ Ex). }
  destruct (get_entries_some h c marker v Hget) as [[-> ->] | [-> ->]].
  - split; [exact (Hstep _ _ Hh) | simpl; auto].
  - split; [exact (Hstep _ _ Hc) | simpl; auto].
Qed.

(** ["Hemoglobin: -5, Cholesterol 180"]: no Hemoglobin entry at all. *)
Lemma findings_sign_witness :
  PyFloat.ltb (PyFloat.literal "180") (PyFloat.Fin 0) = false
  /\ In "Cholesterol" (Dict.keys NutritionAnalysisTool.reference_ranges).
Proof.
  apply (findings_are_never_negative
           "Hemoglobin: -5, Cholesterol 180" "Cholesterol"
           [("Cholesterol", PyFloat.literal "180")] (PyFloat.literal "180")).
  - vm_compute. reflexivity.
  - reflexivity.
Defined.

(** * [main.py]: the upload handler *)

(** ** Files as a dictionary *)

Section Files.

Context {V : Type}.

Lemma get_set_same (d : Dict.t V) (k : string) (v : V) :
  Dict.get (Dict.set d k v) k = Some v.
Proof.
  induction d as [|[k' w] d IH]; simpl.
  - now rewrite String.eqb_refl.
  - destruct (String.eqb k' k) eqn:E; simpl; rewrite E; [reflexivity | exact IH].
Qed.

Lemma get_set_other (d : Dict.t V) (k k' : string) (v : V) :
  k' <> k -> Dict.get (Dict.set d k v) k' = Dict.get d k'.
Proof.
  intros N. induction d as [|[x w] d IH]; simpl.
  - apply String.eqb_neq in N. rewrite String.eqb_sym in N. now rewrite N.
  - destruct (String.eqb x k) eqn:E; simpl.
    + apply String.eqb_eq in E. subst x.
      destruct (String.eqb k k') eqn:F; [|reflexivity].
      apply String.eqb_eq in F. congruence.
    + destruct (String.eqb x k'); [reflexivity | exact IH].
Qed.

End Files.

Section Removal.



End Removal.

(** ** The extension kept from the client's file name *)

Section Splitext.





End Splitext.


(** ** [str.strip] *)

Section Strip.

Lemma lstrip_no_lead (s : string) :
  Spec.starts_in Re.is_space (Main.lstrip s) = false.
Proof.
  induction s as [|c s IH]; [reflexivity|]. cbn [Main.lstrip].
  destruct (Re.is_space c) eqn:E; [exact IH | exact E].
Qed.

Lemma lstrip_suffix (s : string) : exists ws, s = ws ++ Main.lstrip s.
Proof.
  induction s as [|c s [ws IH]]; [now exists ""|]. cbn [Main.lstrip].
  destruct (Re.is_space c).
  - exists (String c ws). simpl. now rewrite <- IH.
  - now exists "".
Qed.

Lemma lstrip_blank (s : string) :
  PyStr.all_chars Re.is_space s = true -> Main.lstrip s = "".
Proof.
  induction s as [|c s IH]; [reflexivity|]. simpl. intros H.
  apply andb_true_iff in H as [Hc Hs]. rewrite Hc. exact (IH Hs).
Qed.

Lemma strip_no_trail (s : string) :
  Spec.starts_in Re.is_space (PyStr.rev (Main.strip s)) = false.
Proof. unfold Main.strip. rewrite rev_involutive. apply lstrip_no_lead. Qed.

Lemma strip_no_lead (s : string) :
  Spec.starts_in Re.is_space (Main.strip s) = false.
Proof.
  unfold Main.strip.
  destruct (lstrip_suffix (PyStr.rev (Main.lstrip s))) as [ws Hws].
  pose proof (lstrip_no_lead s) as Hlead.
  rewrite <- (rev_involutive (Main.lstrip s)), Hws, rev_append in Hlead.
  destruct (PyStr.rev (Main.lstrip (PyStr.rev (Main.lstrip s))));
    [reflexivity | exact Hlead].
Qed.

Lemma strip_blank (s : string) :
  PyStr.all_chars Re.is_space s = true -> Main.strip s = "".
Proof. intros H. unfold Main.strip. now rewrite (lstrip_blank s H). Qed.

End Strip.

(** ** The handler, case by case *)

Section HandlerFacts.

Variable Response : Type.
Variable repr : Response -> string.


(** The files once the upload is written. *)
Lemma written_upload (fs : Dict.t string) (tp body : string) :
  Dict.get (Dict.set (Dict.set fs tp "") tp body) tp = Some body
  /\ forall other, other <> tp ->
       Dict.get (Dict.set (Dict.set fs tp "") tp body) other = Dict.get fs other.
Proof.
  split; [apply get_set_same|].
  intros other N. now rewrite !get_set_other.
Qed.

Lemma handler_within_limit
      (data_dir uuid : string) (file : Main.UploadFile) (query : string)
      (runner : Main.Runner Response) (default_query : string)
      (st : Main.State) :
  (Main.len (Main.content file) <= Main.upload_limit)%N ->
  Main.process_file_and_run Response repr data_dir uuid file query runner
                            default_query st
  = let tp := Main.temp_path_of data_dir uuid file in
    let q := Main.strip (Main.str_or query default_query) in
    let fs1 := Dict.set (Dict.set (Main.files st) tp "") tp (Main.content file) in
    match runner q tp fs1 with
    | (inr detail, fs) =>
        (Main.HTTPException 500 detail, Main.mkState fs (Main.background st))
    | (inl response, fs) =>
        let r := Main.mkResult uuid (Main.filename file) q (repr response) in
        match Dict.get fs tp with
        | None =>
            (Main.Unhandled
               (FileNotFoundError
                  ("[Errno 2] No such file or directory: '" ++ tp ++ "'")),
             Main.mkState fs (Main.background st ++ [(uuid, r)])%list)
        | Some _ =>
            (Main.Returned r,
             Main.mkState (Main.remove fs tp)
                          (Main.background st ++ [(uuid, r)])%list)
        end
    end.
Proof.
  intros H. unfold Main.process_file_and_run.
  apply N.ltb_ge in H. rewrite H. reflexivity.
Qed.

End HandlerFacts.







(** X13.  The query echoed in the result, which is the one the runner was
    given, is the request's query, or the default when that is empty, with
    the whitespace at both ends stripped.  The default is not used for a
    query of whitespace only: that one reaches the runner as the empty
    string. *)
Theorem query_is_stripped_after_the_default
        (Response : Type) (repr : Response -> string)
        (data_dir uuid : string) (file : Main.UploadFile) (query : string)
        (runner : Main.Runner Response) (default_query : string)
        (st : Main.State) (r : Main.ResultObj) :
  fst (Main.process_file_and_run Response repr data_dir uuid file query runner
                                 default_query st)
  = Main.Returned r ->
  Main.query r = Main.strip (if PyStr.is_empty query then default_query else query)
  /\ Spec.starts_in Re.is_space (Main.query r) = false
  /\ Spec.starts_in Re.is_space (PyStr.rev (Main.query r)) = false
  /\ (query = "" -> Main.query r = Main.strip default_query)
  /\ (query <> "" -> PyStr.all_chars Re.is_space query = true ->
      Main.query r = "")
  /\ exists response,
       fst (runner (Main.query r) (Main.temp_path_of data_dir uuid file)
                   (Dict.set (Dict.set (Main.files st)
                                       (Main.temp_path_of data_dir uuid file) "")
                             (Main.temp_path_of data_dir uuid file)
                             (Main.content file)))
       = inl response
       /\ Main.analysis r = repr response.
Proof.
  intros H.
  destruct (N.ltb_spec Main.upload_limit (Main.len (Main.content file)))
    as [L|G].
  - unfold Main.process_file_and_run in H. apply N.ltb_lt in L.
    rewrite L in H. discriminate.
  - rewrite (handler_within_limit Response repr _ _ _ _ _ _ _ G) in H.
    cbv zeta in H.
    destruct (runner _ _ _) as [[response|detail] fs] eqn:Hr; cbn [fst] in H;
      [|discriminate].
    destruct (Dict.get fs _); cbn [fst] in H; [|discriminate].
    injection H as <-. cbn [Main.query Main.analysis].
    split; [reflexivity|]. split; [apply strip_no_lead|].
    split; [apply strip_no_trail|]. split; [intros ->; reflexivity|].
    split.
    + intros N Hb. unfold Main.str_or.
      destruct query; [congruence|]. cbn [PyStr.is_empty].
      now apply strip_blank.
    + exists response. unfold Main.str_or in Hr. unfold Main.str_or.
      rewrite Hr. split; reflexivity.
Qed.

(** A query of three spaces: the runner gets the empty string. *)
Lemma blank_query_witness :
  Main.query
    (Main.mkResult "0f8fad5b" None ""
                   "analysis of data/upload_0f8fad5b.pdf") = "".
Proof.
  destruct (query_is_stripped_after_the_default
              string (fun s => s) "data" "0f8fad5b"
              (Main.mkUpload None "%PDF-") "   " Main.runner_ok
              "Summarise my report" (Main.mkState [] [])
              (Main.mkResult "0f8fad5b" None ""
                             "analysis of data/upload_0f8fad5b.pdf")
              ltac:(vm_compute; reflexivity))
    as (_ & _ & _ & _ & Hblank & _).
  apply Hblank; [discriminate | reflexivity].
Defined.

(** ** From the handler's path to the extractor's test *)

Section StoredName.







End StoredName.

